(** * YouTube audio downloader: a shallow embedding of
      [src/backend/youtube_downloader.py]

    Part I is the program.  [PyStr] holds the operations on Python [str]
    values, modelled as [string] (a character is one [ascii] code; the
    patterns of this program treat all characters outside ASCII alike).
    [Re] is the fragment of Python's [re] module the downloader uses,
    [PurePath] and [Fs] model [pathlib] (POSIX flavour) and the files on
    disk, and [YouTubeDownloader] is the class itself, written in a small
    state, trace and exception monad.  The yt-dlp engine and the mutagen
    tag library are interfaces: the methods are parameterised by them and
    every theorem holds for all their behaviours.

    Part I also holds the callers: the interactive shell ([Shell]), the
    test script ([TestDownload]) and the installer ([Install]).

    Part II names what the properties speak about, Part III proves the
    specified properties, Part IV further properties of the code. *)

From Stdlib Require Import Ascii String.
From stdpp Require Import gmap strings list pretty.

Local Open Scope Z_scope.

(** * Part I: the program *)

(** ** Python strings *)

Module PyStr.

(** [all p s]: every character of [s] satisfies [p]. *)
Fixpoint all (p : ascii → bool) (s : string) : bool :=
  match s with
  | "" => true
  | String c s' => p c && all p s'
  end.

(** [mem c s]: the character [c] occurs in [s] (Python's [c in s]). *)
Fixpoint mem (c : ascii) (s : string) : bool :=
  match s with
  | "" => false
  | String d s' => Ascii.eqb c d || mem c s'
  end.

(** [strip_prefix l s] is [Some s'] when [s = l ++ s']. *)
Fixpoint strip_prefix (l s : string) : option string :=
  match l with
  | "" => Some s
  | String c l' =>
      match s with
      | "" => None
      | String d s' => if Ascii.eqb c d then strip_prefix l' s' else None
      end
  end.

(** [str.endswith]. *)
Fixpoint ends_with (suffix s : string) : bool :=
  String.eqb s suffix ||
  match s with
  | "" => false
  | String _ s' => ends_with suffix s'
  end.

End PyStr.

(** ** The fragment of Python's [re] used by the downloader *)

Module Re.

(** Character sets: [.] (anything but a newline, no DOTALL flag is given),
    a bracket set [[...]] and a negated bracket set [[^...]]. *)
Inductive cset :=
| CDot
| CIn (cs : string)
| CNotIn (cs : string).

Definition cset_mem (p : cset) (c : ascii) : bool :=
  match p with
  | CDot => negb (Ascii.eqb c "010"%char)
  | CIn cs => PyStr.mem c cs
  | CNotIn cs => negb (PyStr.mem c cs)
  end.

(** Patterns.  [Plus] is restricted to a character set, the only shape
    under a [+] in this program. *)
Inductive regex :=
| Lit (l : string)
| Cls (p : cset)
| Seq (r1 r2 : regex)
| Alt (r1 r2 : regex)
| Opt (r : regex)
| Plus (p : cset)
| Rep (n : nat) (r : regex).

Declare Scope re_scope.
Delimit Scope re_scope with re.
Bind Scope re_scope with regex.
Notation "r1 ⋅ r2" := (Seq r1 r2)
  (at level 41, right associativity) : re_scope.
Notation "r1 ∣ r2" := (Alt r1 r2)
  (at level 42, right associativity) : re_scope.

(** A backtracking matcher in continuation-passing style: [rmatch r s k]
    tries the ways [r] can consume a prefix of [s], in the order of the
    [re] engine (first alternative first, greedy repetition), and accepts
    as soon as the continuation accepts the remainder. *)
Fixpoint rmatch (r : regex) (s : string) (k : string → bool) {struct r} : bool :=
  match r with
  | Lit l =>
      match PyStr.strip_prefix l s with
      | Some s' => k s'
      | None => false
      end
  | Cls p =>
      match s with
      | String c s' => cset_mem p c && k s'
      | "" => false
      end
  | Seq r1 r2 => rmatch r1 s (fun s' => rmatch r2 s' k)
  | Alt r1 r2 => rmatch r1 s k || rmatch r2 s k
  | Opt r1 => rmatch r1 s k || k s
  | Plus p =>
      (fix go (s : string) : bool :=
         match s with
         | String c s' => cset_mem p c && (go s' || k s')
         | "" => false
         end) s
  | Rep n r1 =>
      (fix rep (n : nat) (s : string) (k : string → bool) : bool :=
         match n with
         | O => k s
         | S m => rmatch r1 s (fun s' => rep m s' k)
         end) n s k
  end.

(** [re.compile(r).match(s) is not None]: the pattern matches at the start
    of [s]; nothing is required of what follows the match. *)
Definition re_match (r : regex) (s : string) : bool :=
  rmatch r s (fun _ => true).

(** [re.sub('[cs]', repl, s)] for a pattern that is one bracket set: every
    match is exactly one character long, so the leftmost non-overlapping
    scan replaces each character of the set, one by one. *)
Fixpoint re_sub_cset (p : cset) (repl : string) (s : string) : string :=
  match s with
  | "" => ""
  | String c s' =>
      if cset_mem p c then repl +:+ re_sub_cset p repl s'
      else String c (re_sub_cset p repl s')
  end.

(** The language of a pattern, as a predicate on the consumed text. *)
Fixpoint lang (r : regex) (s : string) : Prop :=
  match r with
  | Lit l => s = l
  | Cls p => ∃ c, s = String c "" ∧ cset_mem p c = true
  | Seq r1 r2 => ∃ x y, s = x +:+ y ∧ lang r1 x ∧ lang r2 y
  | Alt r1 r2 => lang r1 s ∨ lang r2 s
  | Opt r1 => lang r1 s ∨ s = ""
  | Plus p => s ≠ "" ∧ PyStr.all (cset_mem p) s = true
  | Rep n r1 =>
      (fix rep (n : nat) (s : string) : Prop :=
         match n with
         | O => s = ""
         | S m => ∃ x y, s = x +:+ y ∧ lang r1 x ∧ rep m y
         end) n s
  end.

Definition accepts (r : regex) (k : string → bool) (s : string) : Prop :=
  ∃ x y, s = x +:+ y ∧ lang r x ∧ k y = true.

End Re.

(** ** Python values, exceptions and results *)

(** The values the engine's info dictionary holds for the keys the
    downloader reads. *)
Inductive PyVal :=
| PyNone
| PyInt (z : Z)
| PyStr (s : string).

(** Truth value of a Python object. *)
Definition truthy (v : PyVal) : bool :=
  match v with
  | PyNone => false
  | PyInt z => negb (z =? 0)
  | PyStr s => negb (String.eqb s "")
  end.

(** [str(v)], as an f-string field formats it. *)
Definition py_str (v : PyVal) : string :=
  match v with
  | PyNone => "None"
  | PyInt z => pretty z
  | PyStr s => s
  end.

(** Subclasses of [Exception]; what an external library raises is a
    [LibraryError] carrying the library's text. *)
Inductive Exception :=
| TypeError
| ValueError
| AttributeError
| FileNotFoundError
| LibraryError (msg : string).

Inductive Res (A : Type) :=
| Ok (a : A)
| Raise (e : Exception).
Arguments Ok {A} a.
Arguments Raise {A} e.

(** [v // n] and [v % n] for a positive [int] literal [n]: floor division on
    an [int], [TypeError] on [None] and on a [str]. *)
Definition py_floordiv (v : PyVal) (n : Z) : Res Z :=
  match v with
  | PyInt z => Ok (z / n)
  | _ => Raise TypeError
  end.

Definition py_mod (v : PyVal) (n : Z) : Res Z :=
  match v with
  | PyInt z => Ok (z mod n)
  | _ => Raise TypeError
  end.

(** The [{v:,}] format field: thousands separators exist for numbers only. *)
Definition py_format_comma (v : PyVal) : Res Z :=
  match v with
  | PyInt z => Ok z
  | PyNone => Raise TypeError
  | PyStr _ => Raise ValueError
  end.

(** [max(l, key=key)]: keys are computed left to right and the first element
    with the greatest key is kept; an exception of [key] propagates. *)
Fixpoint py_max_go {A} (key : A → Res Z) (best : A) (kbest : Z) (l : list A)
  : Res A :=
  match l with
  | [] => Ok best
  | x :: l' =>
      match key x with
      | Raise e => Raise e
      | Ok kx =>
          if kbest <? kx then py_max_go key x kx l'
          else py_max_go key best kbest l'
      end
  end.

Definition py_max {A} (key : A → Res Z) (l : list A) : Res A :=
  match l with
  | [] => Raise ValueError
  | x :: l' =>
      match key x with
      | Raise e => Raise e
      | Ok kx => py_max_go key x kx l'
      end
  end.

(** ** [pathlib] paths (POSIX flavour) *)

Record Path := mkPath { anchor : string; parts : list string }.

Global Instance Path_eq_dec : EqDecision Path.
Proof. solve_decision. Defined.

Module PurePath.

(** A leading slash makes a segment absolute; exactly two leading slashes
    are kept apart, as POSIX allows. *)
Definition anchor_of (s : string) : string :=
  match s with
  | String "/" (String "/" (String "/" _)) => "/"
  | String "/" (String "/" _) => "//"
  | String "/" _ => "/"
  | _ => ""
  end.

(** Empty components and [.] are dropped when a segment is parsed. *)
Definition keep (cur : string) : list string :=
  if String.eqb cur "" || String.eqb cur "." then [] else [cur].

Fixpoint components_go (cur s : string) : list string :=
  match s with
  | "" => keep cur
  | String c s' =>
      if Ascii.eqb c "/" then keep cur ++ components_go "" s'
      else components_go (cur +:+ String c "") s'
  end.

Definition components (s : string) : list string := components_go "" s.

(** [Path(s)] *)
Definition of_string (s : string) : Path :=
  {| anchor := anchor_of s; parts := components s |}.

(** [p / s] *)
Definition div (p : Path) (s : string) : Path :=
  if String.eqb (anchor_of s) ""
  then {| anchor := anchor p; parts := parts p ++ components s |}
  else of_string s.

(** [str(p)] *)
Definition to_string (p : Path) : string :=
  match parts p with
  | [] => if String.eqb (anchor p) "" then "." else anchor p
  | _ => anchor p +:+ String.concat "/" (parts p)
  end.

(** [p.name] and [p.parent] *)
Definition name (p : Path) : string := List.last (parts p) "".

Definition parent (p : Path) : Path :=
  {| anchor := anchor p; parts := removelast (parts p) |}.

(** The child of a directory for one of its entries, as a directory scan
    builds it. *)
Definition child (dir : Path) (entry : string) : Path :=
  {| anchor := anchor dir; parts := parts dir ++ [entry] |}.

End PurePath.

Declare Scope path_scope.
Delimit Scope path_scope with path.
Infix "/" := PurePath.div : path_scope.

(** ** The file system *)

(** A file is known by its path and carries the time [os.path.getctime]
    reports.  The file system is the list of the files that exist, in the
    order a directory scan yields them. *)
Record File := mkFile { fpath : Path; fctime : Z }.

Module Fs.

Definition lookup (p : Path) (fs : list File) : option File :=
  List.find (fun f => bool_decide (fpath f = p)) fs.

(** [os.path.getctime(p)] *)
Definition getctime (fs : list File) (p : Path) : Res Z :=
  match lookup p fs with
  | Some f => Ok (fctime f)
  | None => Raise FileNotFoundError
  end.

(** [dir.glob("*.mp3")]: the entries of [dir] itself (the pattern has no
    separator, the scan is not recursive) whose name ends in [.mp3]. *)
Definition in_dir (dir : Path) (p : Path) : bool :=
  bool_decide (parts p ≠ []) && bool_decide (PurePath.parent p = dir).

Definition glob_mp3 (dir : Path) (fs : list File) : list Path :=
  fpath <$>
    List.filter (fun f => in_dir dir (fpath f) &&
                          PyStr.ends_with ".mp3" (PurePath.name (fpath f))) fs.

(** [src.rename(dst)] with the semantics of rename(2) on regular files: the
    source must exist, an existing destination is replaced. *)
Definition rename (src dst : Path) (fs : list File) : Res (list File) :=
  match lookup src fs with
  | None => Raise FileNotFoundError
  | Some _ =>
      if bool_decide (src = dst) then Ok fs
      else Ok ((fun f => if bool_decide (fpath f = src)
                         then {| fpath := dst; fctime := fctime f |} else f)
                 <$> List.filter (fun f => negb (bool_decide (fpath f = dst))) fs)
  end.

End Fs.

(** ** The downloader's data *)

(** The dictionary [get_video_info] returns: a literal with four keys. *)
Record VideoInfo := mkVideoInfo {
  title : PyVal;
  uploader : PyVal;
  duration : PyVal;
  view_count : PyVal;
}.

Record Postprocessor := mkPostprocessor {
  key : string;
  preferredcodec : string;
  preferredquality : string;
}.

(** [self.ydl_opts] *)
Record YdlOpts := mkYdlOpts {
  format : string;
  outtmpl : string;
  postprocessors : list Postprocessor;
  noplaylist : bool;
  ignoreerrors : bool;
  no_warnings : bool;
}.

Definition set_outtmpl (t : string) (o : YdlOpts) : YdlOpts :=
  {| format := format o; outtmpl := t; postprocessors := postprocessors o;
     noplaylist := noplaylist o; ignoreerrors := ignoreerrors o;
     no_warnings := no_warnings o |}.

(** The instance: [current_video_info] is an attribute that does not exist
    until [download_audio] first assigns it. *)
Record Downloader := mkDownloader {
  output_dir : Path;
  ydl_opts : YdlOpts;
  current_video_info : option VideoInfo;
}.

(** ID3 text frames and the object [MP3(path, ID3=ID3)] returns. *)
Inductive FrameId := TIT2 | TPE1 | TALB.

Record Frame := mkFrame { frame_id : FrameId; encoding : Z; text : PyVal }.

Record AudioFile := mkAudioFile {
  af_path : string;
  af_tags : option (list Frame);
}.

(** What the program prints, one constructor per [print] call that reports
    on the download. *)
Inductive Message :=
| MsgInvalidUrl
| MsgFetchingInfo
| MsgInfoUnavailable (e : Exception)
| MsgTitle (v : PyVal)
| MsgUploader (v : PyVal)
| MsgDuration (minutes seconds : Z)
| MsgViewCount (n : Z)
| MsgDownloading
| MsgOutputNotFound
| MsgDone (p : Path)
| MsgDownloadFailed (e : Exception)
| MsgMetadataFailed (e : Exception).

(** What the program does to the outside world, in order. *)
Inductive Event :=
| EvPrint (m : Message)
| EvExtractInfo (url : string)
| EvDownload (opts : YdlOpts) (url : string)
| EvRename (src dst : Path)
| EvTagOpen (path : string)
| EvTagAddTags
| EvTagAdd (f : Frame)
| EvTagSave (path : string).

(** ** External collaborators *)

(** yt-dlp.  [extract_info] is [YoutubeDL({'quiet': True}).extract_info(url,
    download=False)]; [download] is [YoutubeDL(opts).download([url])].  Either
    may raise, and either may leave the file system changed. *)
Record YtDlp := mkYtDlp {
  extract_info : string → list File → Res (option (gmap string PyVal)) * list File;
  download : YdlOpts → string → list File → Res () * list File;
}.

(** mutagen.  Opening, creating the tag container, adding a frame and saving
    may each raise. *)
Record Mutagen := mkMutagen {
  mp3_open : string → list File → Res AudioFile;
  add_tags : AudioFile → Res AudioFile;
  tags_add : AudioFile → Frame → Res AudioFile;
  save : AudioFile → list File → Res () * list File;
}.

(** ** The monad of the program: state, output trace and exceptions *)

Record World := mkWorld { self_ : Downloader; files : list File }.

Definition M (A : Type) : Type := World → Res A * World * list Event.

Global Instance M_ret : MRet M := fun A (a : A) w => (Ok a, w, []).

Global Instance M_bind : MBind M := fun A B (f : A → M B) (m : M A) w =>
  match m w with
  | (Ok a, w', t) => let '(r, w'', t') := f a w' in (r, w'', t ++ t')
  | (Raise e, w', t) => (Raise e, w', t)
  end.

Definition raise {A} (e : Exception) : M A := fun w => (Raise e, w, []).

(** [try: m  except Exception as e: h e] *)
Definition try_except {A} (m : M A) (h : Exception → M A) : M A := fun w =>
  match m w with
  | (Ok a, w', t) => (Ok a, w', t)
  | (Raise e, w', t) => let '(r, w'', t') := h e w' in (r, w'', t ++ t')
  end.

Definition lift {A} (r : Res A) : M A := fun w => (r, w, []).

Definition emit (ev : Event) : M () := fun w => (Ok (), w, [ev]).

Definition print (m : Message) : M () := emit (EvPrint m).

Definition get_self : M Downloader := fun w => (Ok (self_ w), w, []).

Definition put_self (d : Downloader) : M () := fun w =>
  (Ok (), {| self_ := d; files := files w |}, []).

Definition get_files : M (list File) := fun w => (Ok (files w), w, []).

(** A call that reads and may change the file system. *)
Definition fs_call {A} (f : list File → Res A * list File) : M A := fun w =>
  let '(r, fs) := f (files w) in (r, {| self_ := self_ w; files := fs |}, []).


(** ** class YouTubeDownloader *)

Module YouTubeDownloader.

Import Re.

(** [__init__]: the output directory (created on disk when missing, which
    adds no file) and the yt-dlp options. *)
Definition init (output_dir : string) : Downloader :=
  let dir := PurePath.of_string output_dir in
  {| output_dir := dir;
     ydl_opts :=
       {| format := "bestaudio/best";
          outtmpl := PurePath.to_string (dir / "%(title)s.%(ext)s")%path;
          postprocessors :=
            [ {| key := "FFmpegExtractAudio";
                 preferredcodec := "mp3";
                 preferredquality := "192" |} ];
          noplaylist := true;
          ignoreerrors := true;
          no_warnings := false |};
     current_video_info := None |}.

(** [(https?://)?(www\.)?(youtube|youtu|youtube-nocookie)\.(com|be)/]
    [(watch\?v=|embed/|v/|.+\?v=)?([^&=%\?]{11})] *)
Definition youtube_regex : regex :=
  (Opt (Lit "http" ⋅ Opt (Lit "s") ⋅ Lit "://") ⋅
   Opt (Lit "www.") ⋅
   (Lit "youtube" ∣ Lit "youtu" ∣ Lit "youtube-nocookie") ⋅
   Lit "." ⋅
   (Lit "com" ∣ Lit "be") ⋅
   Lit "/" ⋅
   Opt (Lit "watch?v=" ∣ Lit "embed/" ∣ Lit "v/" ∣ Plus CDot ⋅ Lit "?v=") ⋅
   Rep 11 (Cls (CNotIn "&=%?")))%re.

Definition is_valid_youtube_url (url : string) : bool :=
  re_match youtube_regex url.

(** The bracket set of the pattern [re.sub] strips from a requested file
    name: less-than, greater-than, colon, double quote, slash, backslash,
    vertical bar, question mark and asterisk. *)
Definition illegal_chars : string :=
  String "<" (String ">" (String ":" (String "034" (String "/"
    (String "\" (String "|" (String "?" (String "*" "")))))))).

Definition safe_filename_of (output_filename : string) : string :=
  re_sub_cset (CIn illegal_chars) "" output_filename.

(** [if output_filename:] — [None] and the empty string are false. *)
Definition name_given (output_filename : option string) : bool :=
  match output_filename with
  | Some s => negb (String.eqb s "")
  | None => false
  end.

Definition dict_get (d : gmap string PyVal) (k : string) (dflt : PyVal) : PyVal :=
  default dflt (d !! k).

Section Methods.

Context (ydl : YtDlp) (mutagen : Mutagen).

Definition get_video_info (url : string) : M (option VideoInfo) :=
  try_except
    (emit (EvExtractInfo url);;
     info ← fs_call (extract_info ydl url);
     match info with
     | None => raise AttributeError
     | Some d =>
         mret (Some {| title := dict_get d "title" (PyStr "Unknown");
                       uploader := dict_get d "uploader" (PyStr "Unknown");
                       duration := dict_get d "duration" (PyInt 0);
                       view_count := dict_get d "view_count" (PyInt 0) |})
     end)
    (fun e => print (MsgInfoUnavailable e);; mret None).

Definition add_metadata (mp3_path : Path) (video_info : option VideoInfo)
  : M () :=
  try_except
    (let path := PurePath.to_string mp3_path in
     emit (EvTagOpen path);;
     fs ← get_files;
     audio_file ← lift (mp3_open mutagen path fs);
     audio_file ←
       match af_tags audio_file with
       | None => emit EvTagAddTags;; lift (add_tags mutagen audio_file)
       | Some _ => mret audio_file
       end;
     audio_file ←
       match video_info with
       | Some video_info =>
           audio_file ←
             (if truthy (title video_info) then
                let f := mkFrame TIT2 3 (title video_info) in
                emit (EvTagAdd f);; lift (tags_add mutagen audio_file f)
              else mret audio_file);
           audio_file ←
             (if truthy (uploader video_info) then
                let f := mkFrame TPE1 3 (uploader video_info) in
                emit (EvTagAdd f);; lift (tags_add mutagen audio_file f)
              else mret audio_file);
           (if truthy (uploader video_info) then
              let f := mkFrame TALB 3
                         (PyStr ("YouTube - " +:+ py_str (uploader video_info))) in
              emit (EvTagAdd f);; lift (tags_add mutagen audio_file f)
            else mret audio_file)
       | None => mret audio_file
       end;
     emit (EvTagSave (af_path audio_file));;
     fs_call (save mutagen audio_file))
    (fun e => print (MsgMetadataFailed e)).

Definition download_audio (url : string) (output_filename : option string)
  : M (option string) :=
  if negb (is_valid_youtube_url url) then
    print MsgInvalidUrl;; mret None
  else
    print MsgFetchingInfo;;
    info ← get_video_info url;
    match info with
    | None => mret None
    | Some info =>
        self ← get_self;
        put_self {| output_dir := output_dir self;
                    ydl_opts := ydl_opts self;
                    current_video_info := Some info |};;
        print (MsgTitle (title info));;
        print (MsgUploader (uploader info));;
        minutes ← lift (py_floordiv (duration info) 60);
        seconds ← lift (py_mod (duration info) 60);
        print (MsgDuration minutes seconds);;
        views ← lift (py_format_comma (view_count info));
        print (MsgViewCount views);;
        (if name_given output_filename then
           let safe_filename := safe_filename_of (default "" output_filename) in
           self ← get_self;
           put_self
             {| output_dir := output_dir self;
                ydl_opts :=
                  set_outtmpl
                    (PurePath.to_string
                       (output_dir self / (safe_filename +:+ ".%(ext)s"))%path)
                    (ydl_opts self);
                current_video_info := current_video_info self |}
         else mret ());;
        try_except
          (print MsgDownloading;;
           self ← get_self;
           emit (EvDownload (ydl_opts self) url);;
           fs_call (download ydl (ydl_opts self) url);;
           fs ← get_files;
           let downloaded_files := Fs.glob_mp3 (output_dir self) fs in
           match downloaded_files with
           | [] => print MsgOutputNotFound;; mret None
           | _ =>
               latest_file ← lift (py_max (Fs.getctime fs) downloaded_files);
               latest_file ←
                 (if name_given output_filename then
                    let safe_filename :=
                      safe_filename_of (default "" output_filename) in
                    let new_path :=
                      (output_dir self / (safe_filename +:+ ".mp3"))%path in
                    emit (EvRename latest_file new_path);;
                    fs_call (fun fs =>
                               match Fs.rename latest_file new_path fs with
                               | Ok fs' => (Ok (), fs')
                               | Raise e => (Raise e, fs)
                               end);;
                    mret new_path
                  else mret latest_file);
               self ← get_self;
               match current_video_info self with
               | Some _ => add_metadata latest_file (current_video_info self)
               | None => mret ()
               end;;
               print (MsgDone latest_file);;
               mret (Some (PurePath.to_string latest_file))
           end)
          (fun e => print (MsgDownloadFailed e);; mret None)
    end.

End Methods.

End YouTubeDownloader.

(** ** The interactive shell: [main] of [youtube_downloader.py] *)

Module Shell.

Import YouTubeDownloader.

(** [str.isspace] on one character: the ASCII white space, the four
    separators below the space, NEL and the no-break space. *)
Definition py_isspace (c : ascii) : bool :=
  let n := nat_of_ascii c in
  ((9 <=? n) && (n <=? 13) || (28 <=? n) && (n <=? 32) ||
   (n =? 133) || (n =? 160))%nat.

Fixpoint py_lstrip (s : string) : string :=
  match s with
  | "" => ""
  | String c s' => if py_isspace c then py_lstrip s' else s
  end.

Fixpoint py_rstrip (s : string) : string :=
  match s with
  | "" => ""
  | String c s' =>
      let r := py_rstrip s' in
      if String.eqb r "" && py_isspace c then "" else String c r
  end.

(** [s.strip()] *)
Definition py_strip (s : string) : string := py_rstrip (py_lstrip s).

(** What the shell prints: the banner, the menu (three lines), and one
    message per outcome. *)
Inductive ShellMessage :=
| ShBanner
| ShMenu
| ShUrlMissing
| ShSuccess (path : string)
| ShFailure
| ShBye
| ShBadChoice.

Inductive Prompt := PromptChoice | PromptUrl | PromptName.

(** What the shell does: it prints, reads a line at a prompt, and whatever
    [download_audio] does on its behalf. *)
Inductive ShellEvent :=
| ShPrint (m : ShellMessage)
| ShInput (p : Prompt)
| ShCall (ev : Event).

(** How the shell ends: by the exit choice, by [input] raising [EOFError]
    when no line is left, or by an exception of [download_audio]. *)
Inductive ShellOutcome :=
| Exited
| InputExhausted
| Crashed (e : Exception).

Section Main.

Context (ydl : YtDlp) (mutagen : Mutagen).

(** The body of [while True], run on the lines the user will type. *)
Fixpoint main_loop (inputs : list string) (w : World)
  : ShellOutcome * World * list ShellEvent :=
  match inputs with
  | [] => (InputExhausted, w, [ShPrint ShMenu; ShInput PromptChoice])
  | line :: rest =>
      let choice := py_strip line in
      if String.eqb choice "1" then
        match rest with
        | [] =>
            (InputExhausted, w,
             [ShPrint ShMenu; ShInput PromptChoice; ShInput PromptUrl])
        | line :: rest =>
            let url := py_strip line in
            if String.eqb url "" then
              let '(o, w', t) := main_loop rest w in
              (o, w',
               [ShPrint ShMenu; ShInput PromptChoice; ShInput PromptUrl;
                ShPrint ShUrlMissing] ++ t)
            else
              match rest with
              | [] =>
                  (InputExhausted, w,
                   [ShPrint ShMenu; ShInput PromptChoice; ShInput PromptUrl;
                    ShInput PromptName])
              | line :: rest =>
                  let custom_name := py_strip line in
                  let custom_name :=
                    if String.eqb custom_name "" then None
                    else Some custom_name in
                  let pre :=
                    [ShPrint ShMenu; ShInput PromptChoice; ShInput PromptUrl;
                     ShInput PromptName] in
                  match download_audio ydl mutagen url custom_name w with
                  | (Raise e, w', t) => (Crashed e, w', pre ++ (ShCall <$> t))
                  | (Ok result, w', t) =>
                      let report :=
                        match result with
                        | Some path =>
                            if String.eqb path "" then ShFailure
                            else ShSuccess path
                        | None => ShFailure
                        end in
                      let '(o, w'', t') := main_loop rest w' in
                      (o, w'', pre ++ (ShCall <$> t) ++ [ShPrint report] ++ t')
                  end
              end
        end
      else if String.eqb choice "2" then
        (Exited, w, [ShPrint ShMenu; ShInput PromptChoice; ShPrint ShBye])
      else
        let '(o, w', t) := main_loop rest w in
        (o, w', [ShPrint ShMenu; ShInput PromptChoice; ShPrint ShBadChoice] ++ t)
  end.

(** [main]: the banner, a downloader for the default directory, the loop. *)
Definition main (inputs : list string) (fs : list File)
  : ShellOutcome * World * list ShellEvent :=
  let downloader := init "downloads" in
  let '(o, w, t) := main_loop inputs {| self_ := downloader; files := fs |} in
  (o, w, ShPrint ShBanner :: t).

End Main.

End Shell.

(** ** [test_download.py] *)

Module TestDownload.

Import YouTubeDownloader.

Inductive TestMessage :=
| TestBanner
| TestUrl (url : string)
| TestStart
| TestPassed (path : string)
| TestFailed.

Inductive TestEvent :=
| TPrint (m : TestMessage)
| TCall (ev : Event).

Definition test_url : string := "https://www.youtube.com/watch?v=dQw4w9WgXcQ".

Definition test_downloader (ydl : YtDlp) (mutagen : Mutagen) (fs : list File)
  : Res () * World * list TestEvent :=
  let downloader := init "downloads" in
  let pre := [TPrint TestBanner; TPrint (TestUrl test_url); TPrint TestStart] in
  match download_audio ydl mutagen test_url (Some "test_song")
          {| self_ := downloader; files := fs |} with
  | (Raise e, w, t) => (Raise e, w, pre ++ (TCall <$> t))
  | (Ok result, w, t) =>
      let report :=
        match result with
        | Some path => if String.eqb path "" then TestFailed else TestPassed path
        | None => TestFailed
        end in
      (Ok (), w, pre ++ (TCall <$> t) ++ [TPrint report])
  end.

End TestDownload.

(** ** [install_dependencies.py] *)

Module Install.

(** How a child process ends: exit status 0, another exit status
    ([CalledProcessError] under [check]), or no such program
    ([FileNotFoundError]). *)
Inductive ProcResult := ProcOk | ProcNonZero | ProcNotFound.

(** The machine the script runs on: what [pip install] of a package and
    [ffmpeg -version] end with, and [sys.platform]. *)
Record Machine := mkMachine {
  pip_install : string → ProcResult;
  ffmpeg_version : ProcResult;
  platform : string;
}.

Inductive InstallMessage :=
| InstBanner
| InstInstalling (package : string)
| InstInstalled (package : string)
| InstInstallFailed (package : string)
| InstCheckingFfmpeg
| InstFfmpegFound
| InstFfmpegMissing
| InstHintMac
| InstHintLinux
| InstHintWindows
| InstRerun
| InstDone.

Inductive InstallEvent :=
| IPrint (m : InstallMessage)
| IPip (package : string)
| IFfmpeg.

(** [install_package]: only [CalledProcessError] is caught. *)
Definition install_package (m : Machine) (package : string) : Res bool :=
  match pip_install m package with
  | ProcOk => Ok true
  | ProcNonZero => Ok false
  | ProcNotFound => Raise FileNotFoundError
  end.

(** [check_ffmpeg]: both errors are caught. *)
Definition check_ffmpeg (m : Machine) : bool :=
  match ffmpeg_version m with
  | ProcOk => true
  | ProcNonZero | ProcNotFound => false
  end.

Definition packages : list string := ["yt-dlp>=2023.12.30"; "pydub>=0.25.1"].

(** The [for package in packages] loop of [main]; [Ok true] when it runs to
    its end, [Ok false] when [main] returns [False] from inside it. *)
Fixpoint install_loop (m : Machine) (ps : list string)
  : Res bool * list InstallEvent :=
  match ps with
  | [] => (Ok true, [])
  | package :: ps' =>
      let pre := [IPrint (InstInstalling package); IPip package] in
      match install_package m package with
      | Raise e => (Raise e, pre)
      | Ok false => (Ok false, pre ++ [IPrint (InstInstallFailed package)])
      | Ok true =>
          let '(r, t) := install_loop m ps' in
          (r, pre ++ [IPrint (InstInstalled package)] ++ t)
      end
  end.

Definition platform_hint (m : Machine) : list InstallEvent :=
  if String.eqb (platform m) "darwin" then [IPrint InstHintMac]
  else if String.eqb (platform m) "linux" then [IPrint InstHintLinux]
  else if String.eqb (platform m) "win32" then [IPrint InstHintWindows]
  else [].

Definition main (m : Machine) : Res bool * list InstallEvent :=
  match install_loop m packages with
  | (Ok true, t) =>
      let t := [IPrint InstBanner] ++ t ++ [IPrint InstCheckingFfmpeg; IFfmpeg] in
      if check_ffmpeg m then
        (Ok true, t ++ [IPrint InstFfmpegFound; IPrint InstDone])
      else
        (Ok false,
         t ++ [IPrint InstFfmpegMissing] ++ platform_hint m ++ [IPrint InstRerun])
  | (r, t) => (r, [IPrint InstBanner] ++ t)
  end.

(** The exit status of the script: [sys.exit(0 if success else 1)], and 1
    when an exception ends it. *)
Definition exit_status (m : Machine) : Z :=
  match (main m).1 with
  | Ok true => 0
  | Ok false | Raise _ => 1
  end.

(** The packages [pip] was run for, in order. *)
Definition pip_attempts (t : list InstallEvent) : list string :=
  omap (fun ev => match ev with IPip p => Some p | _ => None end) t.

End Install.

(** * Part II: the vocabulary of the properties *)

(** ** Runs *)

(** The three components of a run. *)
Definition result {A} (m : M A) (w : World) : Res A := (m w).1.1.
Definition final {A} (m : M A) (w : World) : World := (m w).1.2.
Definition events {A} (m : M A) (w : World) : list Event := (m w).2.

(** [wp m w Q]: the run of [m] from [w] ends in a result, a world and a
    trace that satisfy [Q]. *)
Definition wp {A} (m : M A) (w : World)
    (Q : Res A → World → list Event → Prop) : Prop :=
  Q (result m w) (final m w) (events m w).

(** ** The recognised URL shape, part by part *)

Module UrlShape.

Definition scheme (s : string) : Prop :=
  s = "" ∨ s = "http://" ∨ s = "https://".

Definition www (s : string) : Prop := s = "" ∨ s = "www.".

Definition host (s : string) : Prop :=
  s = "youtube" ∨ s = "youtu" ∨ s = "youtube-nocookie".

Definition tld (s : string) : Prop := s = "com" ∨ s = "be".

(** The characters a video identifier is made of: anything but the query
    delimiters ampersand, equals, percent and question mark. *)
Definition id_char (c : ascii) : bool := negb (PyStr.mem c "&=%?").

Definition video_id (v : string) : Prop :=
  String.length v = 11%nat ∧ PyStr.all id_char v = true.

Definition one_line (q : string) : Prop :=
  PyStr.all (fun c => negb (Ascii.eqb c "010"%char)) q = true.

(** What may stand between the slash after the host and the identifier:
    nothing, one of the three fixed prefixes, or any non-empty one-line
    text followed by the query key [?v=]. *)
Definition path_prefix (p : string) : Prop :=
  p = "" ∨ p = "watch?v=" ∨ p = "embed/" ∨ p = "v/" ∨
  ∃ q, q ≠ "" ∧ one_line q ∧ p = q +:+ "?v=".

(** The host part: an optional scheme, an optional [www.], a recognised
    host name, a dot, a top-level domain and the slash. *)
Definition host_part (h : string) : Prop :=
  ∃ sch w hn t,
    scheme sch ∧ www w ∧ host hn ∧ tld t ∧
    h = sch +:+ w +:+ hn +:+ "." +:+ t +:+ "/".

(** The identifier part: an 11-character identifier segment, directly or
    behind a path prefix; anything may follow it. *)
Definition id_part (r : string) : Prop :=
  ∃ p v rest, path_prefix p ∧ video_id v ∧ r = p +:+ v +:+ rest.

(** A string has the recognised shape when it is a host part followed by an
    identifier part. *)
Definition recognized (s : string) : Prop :=
  ∃ h r, host_part h ∧ id_part r ∧ s = h +:+ r.

(** The string lacks an identifier segment: whatever host part it starts
    with, what follows is no identifier part. *)
Definition lacks_id_segment (s : string) : Prop :=
  ∀ h r, s = h +:+ r → host_part h → ¬ id_part r.

(** The string has no recognised host name: it starts with no host part. *)
Definition unrecognized_host (s : string) : Prop :=
  ∀ h r, s = h +:+ r → ¬ host_part h.

End UrlShape.

(** ** Sanitised names *)

(** [stripped bad s t]: [t] is [s] with exactly the characters satisfying
    [bad] deleted, every other character kept, in order. *)
Inductive stripped (bad : ascii → bool) : string → string → Prop :=
| stripped_nil : stripped bad "" ""
| stripped_drop c s t :
    bad c = true → stripped bad s t → stripped bad (String c s) t
| stripped_keep c s t :
    bad c = false → stripped bad s t → stripped bad (String c s) (String c t).

Definition illegal (c : ascii) : bool :=
  PyStr.mem c YouTubeDownloader.illegal_chars.

(** ** The stages of a call *)

Section Stages.

Import YouTubeDownloader.

(** The dictionary [get_video_info] builds from the engine's. *)
Definition info_of (d : gmap string PyVal) : VideoInfo :=
  {| title := dict_get d "title" (PyStr "Unknown");
     uploader := dict_get d "uploader" (PyStr "Unknown");
     duration := dict_get d "duration" (PyInt 0);
     view_count := dict_get d "view_count" (PyInt 0) |}.

(** The path a custom name is renamed to, and the template written for
    it. *)
Definition custom_path (self : Downloader) (name : string) : Path :=
  (output_dir self / (safe_filename_of name +:+ ".mp3"))%path.

Definition custom_template (self : Downloader) (name : string) : string :=
  PurePath.to_string
    (output_dir self / (safe_filename_of name +:+ ".%(ext)s"))%path.

(** The options a call hands to the engine. *)
Definition opts_for (self : Downloader) (output_filename : option string)
  : YdlOpts :=
  if name_given output_filename
  then set_outtmpl (custom_template self (default "" output_filename))
         (ydl_opts self)
  else ydl_opts self.

(** The instance once the metadata is stored and the template written. *)
Definition self_fetched (self : Downloader) (output_filename : option string)
    (d : gmap string PyVal) : Downloader :=
  {| output_dir := output_dir self;
     ydl_opts := opts_for self output_filename;
     current_video_info := Some (info_of d) |}.

(** The engine's part of a call goes through: the URL is valid, the
    metadata call returns the dictionary [d] and leaves the files [fs1],
    its duration and view count are integers, and the download call
    returns normally, leaving the files [fs2]. *)
Definition engine_completes (ydl : YtDlp) (url : string)
    (output_filename : option string) (w : World)
    (d : gmap string PyVal) (dur vc : Z) (fs1 fs2 : list File) : Prop :=
  is_valid_youtube_url url = true ∧
  extract_info ydl url (files w) = (Ok (Some d), fs1) ∧
  duration (info_of d) = PyInt dur ∧
  view_count (info_of d) = PyInt vc ∧
  download ydl (opts_for (self_ w) output_filename) url fs1 = (Ok (), fs2).

(** What such a call has done when the download call returns. *)
Definition fetch_events (url : string) (output_filename : option string)
    (w : World) (d : gmap string PyVal) (dur vc : Z) : list Event :=
  [ EvPrint MsgFetchingInfo;
    EvExtractInfo url;
    EvPrint (MsgTitle (title (info_of d)));
    EvPrint (MsgUploader (uploader (info_of d)));
    EvPrint (MsgDuration (dur / 60) (dur `mod` 60));
    EvPrint (MsgViewCount vc);
    EvPrint MsgDownloading;
    EvDownload (opts_for (self_ w) output_filename) url ].

(** The events of the tag writer, its warning included. *)
Definition tag_stage_event (ev : Event) : Prop :=
  match ev with
  | EvTagOpen _ | EvTagAddTags | EvTagAdd _ | EvTagSave _
  | EvPrint (MsgMetadataFailed _) => True
  | _ => False
  end.

(** Events that rename a file or belong to the tag writer. *)
Definition rename_or_tag_event (ev : Event) : Prop :=
  match ev with
  | EvRename _ _ | EvTagOpen _ | EvTagAddTags | EvTagAdd _ | EvTagSave _ => True
  | _ => False
  end.

End Stages.

(** ** A concrete scenario *)

Module Demo.

Import YouTubeDownloader.

Definition url : string := "https://www.youtube.com/watch?v=dQw4w9WgXcQ".

(** The engine's answer; it omits the view count. *)
Definition info : gmap string PyVal :=
  <["title" := PyStr "Never Gonna Give You Up"]>
    (<["uploader" := PyStr "Rick Astley"]>
       (<["duration" := PyInt 213]> ∅)).

Definition produced : Path :=
  {| anchor := ""; parts := ["downloads"; "Never Gonna Give You Up.mp3"] |}.

(** An engine that answers [info] and writes one file. *)
Definition ydl : YtDlp :=
  {| extract_info := fun _ fs => (Ok (Some info), fs);
     download := fun _ _ fs => (Ok (), fs ++ [mkFile produced 100]) |}.

(** An engine whose download ends without a file and without an error, as
    [ignoreerrors] allows. *)
Definition ydl_nothing : YtDlp :=
  {| extract_info := fun _ fs => (Ok (Some info), fs);
     download := fun _ _ fs => (Ok (), fs) |}.

(** An engine whose metadata call raises. *)
Definition ydl_offline : YtDlp :=
  {| extract_info := fun _ fs => (Raise (LibraryError "network"), fs);
     download := fun _ _ fs => (Raise (LibraryError "network"), fs) |}.

Definition mutagen : Mutagen :=
  {| mp3_open := fun p _ => Ok {| af_path := p; af_tags := None |};
     add_tags := fun a => Ok {| af_path := af_path a; af_tags := Some [] |};
     tags_add := fun a f =>
       Ok {| af_path := af_path a;
             af_tags := Some (default [] (af_tags a) ++ [f]) |};
     save := fun _ fs => (Ok (), fs) |}.

(** A tag library that cannot open the file. *)
Definition mutagen_broken : Mutagen :=
  {| mp3_open := fun _ _ => Raise (LibraryError "not an MP3 file");
     add_tags := fun a => Ok a;
     tags_add := fun a _ => Ok a;
     save := fun _ fs => (Ok (), fs) |}.

(** A tag library that rejects every frame. *)
Definition mutagen_no_frames : Mutagen :=
  {| mp3_open := mp3_open mutagen;
     add_tags := add_tags mutagen;
     tags_add := fun _ _ => Raise (LibraryError "invalid frame");
     save := save mutagen |}.

(** A tag library that cannot save. *)
Definition mutagen_readonly : Mutagen :=
  {| mp3_open := mp3_open mutagen;
     add_tags := add_tags mutagen;
     tags_add := tags_add mutagen;
     save := fun _ fs => (Raise (LibraryError "read-only"), fs) |}.

Definition old_file : File :=
  mkFile {| anchor := ""; parts := ["downloads"; "old.mp3"] |} 7.

(** A fresh instance over an empty directory, and over one that already
    holds a file. *)
Definition w0 : World := {| self_ := init "downloads"; files := [] |}.
Definition w_old : World := {| self_ := init "downloads"; files := [old_file] |}.

End Demo.

(** ** More vocabulary: calls, frames and values *)

Section MoreVocabulary.

Import Re YouTubeDownloader.

Definition is_int (v : PyVal) : Prop := ∃ z, v = PyInt z.

(** The requests made to the engine, in order. *)
Definition is_engine_call (ev : Event) : bool :=
  match ev with
  | EvExtractInfo _ | EvDownload _ _ => true
  | _ => false
  end.

Definition engine_calls (t : list Event) : list Event :=
  List.filter is_engine_call t.

(** The frames handed to the tag library, in order. *)
Definition added_frames (t : list Event) : list Frame :=
  omap (fun ev => match ev with EvTagAdd f => Some f | _ => None end) t.

(** The frames a piece of metadata calls for: the title, then artist and
    album, both from the uploader. *)
Definition tag_frames (video_info : option VideoInfo) : list Frame :=
  match video_info with
  | None => []
  | Some vi =>
      (if truthy (title vi) then [mkFrame TIT2 3 (title vi)] else []) ++
      (if truthy (uploader vi)
       then [mkFrame TPE1 3 (uploader vi);
             mkFrame TALB 3 (PyStr ("YouTube - " +:+ py_str (uploader vi)))]
       else [])
  end.

(** The part of the URL pattern that follows the slash of the host part. *)
Definition id_regex : regex :=
  (Opt (Lit "watch?v=" ∣ Lit "embed/" ∣ Lit "v/" ∣ Plus CDot ⋅ Lit "?v=") ⋅
   Rep 11 (Cls (CNotIn "&=%?")))%re.

End MoreVocabulary.

(** ** What holds of a shell session *)

Section SessionVocabulary.

Import YouTubeDownloader Shell.

(** What a session may do on behalf of the lines [inputs], started with the
    instance of [w]: the engine is asked about valid, stripped input lines
    only, and a file is renamed only to the sanitised form of a stripped,
    non-empty input line, inside the output directory. *)
Definition call_ok (inputs : list string) (w : World) (ev : Event) : Prop :=
  (∀ u, ev = EvExtractInfo u ∨ (∃ opts, ev = EvDownload opts u) →
     is_valid_youtube_url u = true ∧
     ∃ line, line ∈ inputs ∧ u = py_strip line) ∧
  (∀ src dst, ev = EvRename src dst →
     ∃ line, line ∈ inputs ∧ py_strip line ≠ "" ∧
             dst = PurePath.child (output_dir (self_ w))
                     (safe_filename_of (py_strip line) +:+ ".mp3")).

(** How a session may end. *)
Definition outcome_ok (inputs : list string) (o : ShellOutcome)
    (t : list ShellEvent) : Prop :=
  match o with
  | Exited =>
      last t = Some (ShPrint ShBye) ∧ ∃ line, line ∈ inputs ∧ py_strip line = "2"
  | InputExhausted => ∃ p, last t = Some (ShInput p)
  | Crashed e => e = TypeError ∨ e = ValueError
  end.

Definition session_ok (inputs : list string) (w : World)
    (run : ShellOutcome * World * list ShellEvent) : Prop :=
  output_dir (self_ run.1.2) = output_dir (self_ w) ∧
  (∀ ev, ShCall ev ∈ run.2 → call_ok inputs w ev) ∧
  outcome_ok inputs run.1.1 run.2.

End SessionVocabulary.


(** ** More concrete scenarios *)

Module Demo2.

Import YouTubeDownloader.

(** An answer whose duration is present but [None], as for a live stream. *)
Definition info_live : gmap string PyVal :=
  <["title" := PyStr "Live now"]> (<["duration" := PyNone]> ∅).

Definition ydl_live : YtDlp :=
  {| extract_info := fun _ fs => (Ok (Some info_live), fs);
     download := fun _ _ fs => (Ok (), fs) |}.

(** An engine whose metadata call answers and whose download call raises. *)
Definition ydl_no_ffmpeg : YtDlp :=
  {| extract_info := fun _ fs => (Ok (Some Demo.info), fs);
     download := fun _ _ fs => (Raise (LibraryError "ffmpeg not found"), fs) |}.

(** What a user types: a download under a custom name, a wrong choice, the
    exit. *)
Definition session : list string :=
  ["1"; " https://www.youtube.com/watch?v=dQw4w9WgXcQ  "; " My:Song"; "x"; "2"].

End Demo2.

(** * Part III: lemmas and theorems *)

(** ** Facts about strings *)

Module PyStrFacts.

Import PyStr.

Lemma app_cons (c : ascii) (s t : string) :
  String c s +:+ t = String c (s +:+ t).
Proof. reflexivity. Qed.

Lemma app_nil_l (s : string) : "" +:+ s = s.
Proof. reflexivity. Qed.

Lemma app_nil_r (s : string) : s +:+ "" = s.
Proof. induction s as [|c s IH]; [done|]. by rewrite app_cons, IH. Qed.

Lemma app_assoc (s t u : string) : (s +:+ t) +:+ u = s +:+ t +:+ u.
Proof. induction s as [|c s IH]; [done|]. by rewrite !app_cons, IH. Qed.

Lemma length_app (s t : string) :
  String.length (s +:+ t) = (String.length s + String.length t)%nat.
Proof. induction s as [|c s IH]; [done|]. rewrite app_cons. simpl. lia. Qed.

Lemma app_eq_nil (s t : string) : s +:+ t = "" → s = "" ∧ t = "".
Proof. destruct s; [done|]. by rewrite app_cons. Qed.

Lemma all_app p (s t : string) : all p (s +:+ t) = all p s && all p t.
Proof.
  induction s as [|c s IH]; [done|].
  rewrite app_cons. simpl. rewrite IH. by destruct (p c).
Qed.

Lemma mem_cons c d (s : string) :
  mem c (String d s) = Ascii.eqb c d || mem c s.
Proof. reflexivity. Qed.

Lemma mem_app c (s t : string) : mem c (s +:+ t) = mem c s || mem c t.
Proof.
  induction s as [|d s IH]; [done|].
  rewrite app_cons. simpl. rewrite IH. by destruct (Ascii.eqb c d).
Qed.

Lemma strip_prefix_Some l s s' : strip_prefix l s = Some s' ↔ s = l +:+ s'.
Proof.
  revert s. induction l as [|c l IH]; intros s; simpl.
  - rewrite app_nil_l. split; intros; by simplify_eq.
  - rewrite app_cons. destruct s as [|d s]; [done|].
    destruct (Ascii.eqb c d) eqn:E.
    + apply Ascii.eqb_eq in E as ->. rewrite IH. split; intros; by simplify_eq.
    + apply Ascii.eqb_neq in E. split; intros; by simplify_eq.
Qed.

Lemma strip_prefix_app l s : strip_prefix l (l +:+ s) = Some s.
Proof. by apply strip_prefix_Some. Qed.

Lemma ends_with_unfold suffix s :
  ends_with suffix s =
  String.eqb s suffix ||
  match s with "" => false | String _ s' => ends_with suffix s' end.
Proof. by destruct s. Qed.

Lemma ends_with_spec suffix s :
  ends_with suffix s = true ↔ ∃ p, s = p +:+ suffix.
Proof.
  induction s as [|c s IH]; rewrite ends_with_unfold.
  - rewrite orb_false_r, String.eqb_eq. split.
    + intros <-. by exists "".
    + intros [p Hp]. symmetry in Hp. by apply app_eq_nil in Hp as [_ ->].
  - rewrite orb_true_iff, String.eqb_eq, IH. split.
    + intros [<-|[p ->]]; [by exists ""|]. by exists (String c p).
    + intros [[|d p] Hp].
      * left. by rewrite app_nil_l in Hp.
      * right. rewrite app_cons in Hp. simplify_eq. by exists p.
Qed.

Lemma ends_with_app p suffix : ends_with suffix (p +:+ suffix) = true.
Proof. apply ends_with_spec. by exists p. Qed.

End PyStrFacts.

(** ** The matcher computes the language of its pattern *)

Module ReFacts.

Import Re.

Lemma rmatch_plus p s k :
  rmatch (Plus p) s k = true ↔ accepts (Plus p) k s.
Proof.
  unfold accepts. induction s as [|c s IH]; simpl in *.
  - split; [done|]. intros (x & y & Hs & [Hx _] & _).
    symmetry in Hs. by apply PyStrFacts.app_eq_nil in Hs as [-> _].
  - rewrite andb_true_iff, orb_true_iff, IH. split.
    + intros [Hc [(x & y & -> & [_ Hx] & Hk)|Hk]].
      * exists (String c x), y. simpl. by rewrite Hc, Hx.
      * exists (String c ""), s. simpl. by rewrite Hc.
    + intros ([|d x] & y & Hs & [Hne Hx] & Hk); [done|].
      rewrite PyStrFacts.app_cons in Hs. simplify_eq. simpl in Hx.
      apply andb_true_iff in Hx as [Hd Hx]. split; [done|].
      destruct x as [|e x]; [by right|].
      left. by exists (String e x), y.
Qed.

Lemma rmatch_spec r : ∀ s k, rmatch r s k = true ↔ accepts r k s.
Proof.
  induction r as [l|p|r1 IH1 r2 IH2|r1 IH1 r2 IH2|r1 IH1|p|n r1 IH1];
    intros s k.
  - unfold accepts. simpl.
    destruct (PyStr.strip_prefix l s) as [s'|] eqn:E.
    + apply PyStrFacts.strip_prefix_Some in E as ->. split.
      * intros Hk. by exists l, s'.
      * intros (x & y & Hs & -> & Hk). by apply (inj _) in Hs as ->.
    + split; [done|]. intros (x & y & -> & -> & _).
      by rewrite PyStrFacts.strip_prefix_app in E.
  - unfold accepts. simpl. destruct s as [|c s].
    + split; [done|]. by intros (x & y & Hs & (c & -> & _) & _).
    + rewrite andb_true_iff. split.
      * intros [Hc Hk]. exists (String c ""), s. eauto.
      * intros (x & y & Hs & (d & -> & Hd) & Hk).
        rewrite PyStrFacts.app_cons in Hs. by simplify_eq.
  - simpl. rewrite IH1. unfold accepts. split.
    + intros (x & y & -> & Hx & Hy). apply IH2 in Hy as (y1 & y2 & -> & Hy1 & Hk).
      exists (x +:+ y1), y2. rewrite PyStrFacts.app_assoc. simpl. eauto 10.
    + intros (xy & z & -> & (x & y & -> & Hx & Hy) & Hk).
      exists x, (y +:+ z). rewrite PyStrFacts.app_assoc. split_and!; [done..|].
      apply IH2. by exists y, z.
  - simpl. rewrite orb_true_iff, IH1, IH2. unfold accepts. simpl. split.
    + intros [(x & y & ? & ? & ?)|(x & y & ? & ? & ?)]; eauto 10.
    + intros (x & y & ? & [?|?] & ?); eauto 10.
  - simpl. rewrite orb_true_iff, IH1. unfold accepts. simpl. split.
    + intros [(x & y & -> & Hx & Hk)|Hk]; [by eauto 10|].
      exists "", s. eauto.
    + intros (x & y & -> & [Hx| ->] & Hk); [left; by eauto|by right].
  - apply rmatch_plus.
  - revert s k. induction n as [|n IHn]; intros s k.
    + unfold accepts. simpl. split.
      * intros Hk. by exists "", s.
      * by intros (x & y & -> & -> & Hk).
    + change (rmatch (Rep (S n) r1) s k)
        with (rmatch r1 s (fun s' => rmatch (Rep n r1) s' k)).
      rewrite IH1. unfold accepts. split.
      * intros (x & y & -> & Hx & Hy).
        apply IHn in Hy as (y1 & y2 & -> & Hy1 & Hk).
        exists (x +:+ y1), y2. rewrite PyStrFacts.app_assoc.
        split_and!; [done| |done]. by exists x, y1.
      * intros (xy & z & -> & (x & y & -> & Hx & Hy) & Hk).
        exists x, (y +:+ z). rewrite PyStrFacts.app_assoc. split_and!; [done..|].
        apply IHn. by exists y, z.
Qed.

Lemma re_match_spec r s :
  re_match r s = true ↔ ∃ x y, s = x +:+ y ∧ lang r x.
Proof.
  unfold re_match. rewrite rmatch_spec. unfold accepts. split.
  - intros (x & y & ? & ? & _). eauto.
  - intros (x & y & ? & ?). eauto 10.
Qed.

End ReFacts.

(** ** Rules for runs *)

Section WpRules.

Context {A B : Type}.
Implicit Types (Q : Res A → World → list Event → Prop).

Lemma wp_run (m : M A) w Q r w' t : m w = (r, w', t) → wp m w Q → Q r w' t.
Proof. unfold wp, result, final, events. by intros ->. Qed.

Lemma wp_of_run (m : M A) w Q r w' t : m w = (r, w', t) → Q r w' t → wp m w Q.
Proof. unfold wp, result, final, events. by intros ->. Qed.

Lemma wp_mono (m : M A) w Q Q' :
  wp m w Q → (∀ r w' t, Q r w' t → Q' r w' t) → wp m w Q'.
Proof. unfold wp. eauto. Qed.

Lemma wp_ret (a : A) w Q : Q (Ok a) w [] → wp (mret a) w Q.
Proof. done. Qed.

Lemma wp_raise e w Q : Q (Raise e) w [] → wp (raise e) w Q.
Proof. done. Qed.

Lemma wp_lift (r : Res A) w Q : Q r w [] → wp (lift r) w Q.
Proof. done. Qed.

Lemma wp_bind (m : M B) (f : B → M A) w Q :
  wp m w (fun r w' t =>
            match r with
            | Ok b => wp (f b) w' (fun r' w'' t' => Q r' w'' (t ++ t'))
            | Raise e => Q (Raise e) w' t
            end) →
  wp (m ≫= f) w Q.
Proof.
  unfold wp, result, final, events, mbind, M_bind.
  destruct (m w) as [[[b|e] w'] t]; simpl; [|done].
  by destruct (f b w') as [[r' w''] t'].
Qed.

Lemma wp_try (m : M A) (h : Exception → M A) w Q :
  wp m w (fun r w' t =>
            match r with
            | Ok a => Q (Ok a) w' t
            | Raise e => wp (h e) w' (fun r' w'' t' => Q r' w'' (t ++ t'))
            end) →
  wp (try_except m h) w Q.
Proof.
  unfold wp, result, final, events, try_except.
  destruct (m w) as [[[a|e] w'] t]; simpl; [done|].
  by destruct (h e w') as [[r' w''] t'].
Qed.

Lemma wp_fs_call (f : list File → Res A * list File) w Q :
  Q (f (files w)).1 {| self_ := self_ w; files := (f (files w)).2 |} [] →
  wp (fs_call f) w Q.
Proof.
  unfold wp, result, final, events, fs_call.
  by destruct (f (files w)) as [r fs].
Qed.

End WpRules.

Lemma wp_emit ev w (Q : Res () → World → list Event → Prop) :
Q (Ok ()) w [ev] → wp (emit ev) w Q.
Proof. done. Qed.

Lemma wp_print msg w (Q : Res () → World → list Event → Prop) :
Q (Ok ()) w [EvPrint msg] → wp (print msg) w Q.
Proof. done. Qed.

Lemma wp_get_self w (Q : Res Downloader → World → list Event → Prop) :
Q (Ok (self_ w)) w [] → wp get_self w Q.
Proof. done. Qed.

Lemma wp_put_self d w (Q : Res () → World → list Event → Prop) :
Q (Ok ()) {| self_ := d; files := files w |} [] → wp (put_self d) w Q.
Proof. done. Qed.

Lemma wp_get_files w (Q : Res (list File) → World → list Event → Prop) :
Q (Ok (files w)) w [] → wp get_files w Q.
Proof. done. Qed.

(** One step of symbolic execution: the rule for the head of the program,
  then the reduction of the postcondition it was applied to. *)
Ltac wp_head :=
lazymatch goal with
| |- wp (mbind _ _) _ _ => apply wp_bind
| |- wp (mret _) _ _ => apply wp_ret
| |- wp (raise _) _ _ => apply wp_raise
| |- wp (lift _) _ _ => apply wp_lift
| |- wp (try_except _ _) _ _ => apply wp_try
| |- wp (fs_call _) _ _ => apply wp_fs_call
| |- wp (emit _) _ _ => apply wp_emit
| |- wp (print _) _ _ => apply wp_print
| |- wp get_self _ _ => apply wp_get_self
| |- wp (put_self _) _ _ => apply wp_put_self
| |- wp get_files _ _ => apply wp_get_files
end.

Ltac wp_step :=
wp_head; cbn beta iota;
cbn [self_ files app output_dir ydl_opts current_video_info].

(** A case split on what the program branches on next. *)
Ltac wp_branch :=
lazymatch goal with
| |- wp (if ?b then _ else _) _ _ => destruct b eqn:?
| |- wp (match ?x with _ => _ end) _ _ => destruct x eqn:?
| |- match ?x with _ => _ end => destruct x eqn:?
end.

(** ** The URL validator *)

Section Validator.

Import Re ReFacts UrlShape YouTubeDownloader.

Lemma lang_rep_cls n p v :
  lang (Rep n (Cls p)) v ↔
  String.length v = n ∧ PyStr.all (cset_mem p) v = true.
Proof.
  revert v. induction n as [|n IH]; intros v.
  - simpl. split.
    + by intros ->.
    + intros [Hl _]. by destruct v.
  - change (lang (Rep (S n) (Cls p)) v)
      with (∃ x y, v = x +:+ y ∧ lang (Cls p) x ∧ lang (Rep n (Cls p)) y).
    split.
    + intros (x & y & -> & (c & -> & Hc) & Hy).
      apply IH in Hy as [<- Hy].
      rewrite PyStrFacts.app_cons, PyStrFacts.app_nil_l. simpl. by rewrite Hc, Hy.
    + intros [Hl Hv]. destruct v as [|c v]; [done|]. simpl in *.
      apply andb_true_iff in Hv as [Hc Hv].
      exists (String c ""), v. split_and!; [done|by eauto|].
      apply IH. split; [lia|done].
Qed.

Lemma lang_scheme x :
  lang (Opt (Lit "http" ⋅ Opt (Lit "s") ⋅ Lit "://")) x ↔ scheme x.
Proof.
  unfold scheme. simpl. split.
  - intros [(a & b & -> & -> & c & d & -> & [->| ->] & ->)| ->]; auto.
  - intros [->|[->| ->]]; [by right|left..].
    + exists "http", "://". split_and!; [done..|]. exists "", "://". auto.
    + exists "http", "s://". split_and!; [done..|]. exists "s", "://". auto.
Qed.

Lemma lang_path_prefix x :
  lang (Opt (Lit "watch?v=" ∣ Lit "embed/" ∣ Lit "v/" ∣ Plus CDot ⋅ Lit "?v=")) x
  ↔ path_prefix x.
Proof.
  unfold path_prefix, one_line. simpl. split.
  - intros [[->|[->|[->|(q & b & -> & [Hq Hall] & ->)]]]| ->]; eauto 10.
  - intros [->|[->|[->|[->|(q & Hq & Hall & ->)]]]]; eauto 10.
Qed.

(** The text the pattern consumes: a host part, a path prefix and an
    identifier. *)
Lemma lang_youtube_regex x :
  lang youtube_regex x ↔
  ∃ h p v, host_part h ∧ path_prefix p ∧ video_id v ∧ x = h +:+ p +:+ v.
Proof.
  unfold youtube_regex, host_part.
  change (lang (?a ⋅ ?b) ?s) with (∃ x y, s = x +:+ y ∧ lang a x ∧ lang b y).
  split.
  - intros (sch & x1 & -> & Hsch & w & x2 & -> & Hw & h & x3 & -> & Hh &
            dot & x4 & -> & Hdot & t & x5 & -> & Ht & sl & x6 & -> & Hsl &
            p & v & -> & Hp & Hv).
    apply lang_scheme in Hsch. apply lang_path_prefix in Hp.
    apply lang_rep_cls in Hv. simpl in Hw, Hh, Hdot, Ht, Hsl. subst dot sl.
    exists (sch +:+ w +:+ h +:+ "." +:+ t +:+ "/"), p, v.
    split_and!; [|done|done|by rewrite !PyStrFacts.app_assoc].
    exists sch, w, h, t. split_and!; try done. unfold www. tauto.
  - intros (hp & p & v & (sch & w & h & t & Hsch & Hw & Hh & Ht & ->) &
            Hp & Hv & ->).
    apply lang_scheme in Hsch. apply lang_path_prefix in Hp.
    apply (lang_rep_cls 11 (CNotIn "&=%?")) in Hv.
    rewrite !PyStrFacts.app_assoc.
    exists sch, (w +:+ h +:+ "." +:+ t +:+ "/" +:+ p +:+ v).
    split_and!; [done..|].
    exists w, (h +:+ "." +:+ t +:+ "/" +:+ p +:+ v).
    split_and!; [done|simpl; destruct Hw; auto|].
    exists h, ("." +:+ t +:+ "/" +:+ p +:+ v).
    split_and!; [done|simpl; unfold host in Hh; tauto|].
    exists ".", (t +:+ "/" +:+ p +:+ v). split_and!; [done..|].
    exists t, ("/" +:+ p +:+ v). split_and!; [done..|].
    exists "/", (p +:+ v). split_and!; [done..|].
    by exists p, v.
Qed.

(** The validator accepts exactly the strings of the recognised shape. *)
Lemma is_valid_youtube_url_iff s :
  is_valid_youtube_url s = true ↔ recognized s.
Proof.
  unfold is_valid_youtube_url, recognized, id_part.
  rewrite re_match_spec. split.
  - intros (x & rest & -> & Hx).
    apply lang_youtube_regex in Hx as (h & p & v & ? & ? & ? & ->).
    exists h, (p +:+ v +:+ rest). split_and!; [done| |].
    + by exists p, v, rest.
    + by rewrite !PyStrFacts.app_assoc.
  - intros (h & r & Hh & (p & v & rest & Hp & Hv & ->) & ->).
    exists (h +:+ p +:+ v), rest. split.
    + by rewrite !PyStrFacts.app_assoc.
    + apply lang_youtube_regex. by exists h, p, v.
Qed.

Lemma lacks_id_segment_not_recognized s : lacks_id_segment s → ¬ recognized s.
Proof. intros Hno (h & r & Hh & Hr & ->). by apply (Hno h r). Qed.

Lemma unrecognized_host_not_recognized s : unrecognized_host s → ¬ recognized s.
Proof. intros Hno (h & r & Hh & Hr & ->). by apply (Hno h r). Qed.

(** C2. Every string of the recognised URL shape (a supported host name
    with or without the scheme and the [www.] prefix, then an 11-character
    identifier segment, directly or behind a path prefix) is accepted by
    [is_valid_youtube_url]; every string that lacks the identifier segment
    is rejected, and so is every string that has no recognised host name. *)
Theorem is_valid_youtube_url_shape (s : string) :
  (recognized s → is_valid_youtube_url s = true) ∧
  (lacks_id_segment s → is_valid_youtube_url s = false) ∧
  (unrecognized_host s → is_valid_youtube_url s = false).
Proof.
  split_and!.
  - apply is_valid_youtube_url_iff.
  - intros Hno. apply not_true_is_false. intros Hv.
    by apply (lacks_id_segment_not_recognized s Hno), is_valid_youtube_url_iff.
  - intros Hno. apply not_true_is_false. intros Hv.
    by apply (unrecognized_host_not_recognized s Hno), is_valid_youtube_url_iff.
Qed.

End Validator.


(** ** File-name sanitisation *)

Section Sanitize.

Import Re YouTubeDownloader.

Lemma re_sub_cset_stripped p s :
  stripped (cset_mem p) s (re_sub_cset p "" s).
Proof.
  induction s as [|c s IH]; simpl; [constructor|].
  destruct (cset_mem p c) eqn:E.
  - rewrite PyStrFacts.app_nil_l. by constructor.
  - by constructor.
Qed.

Lemma stripped_functional bad s t1 t2 :
  stripped bad s t1 → stripped bad s t2 → t1 = t2.
Proof.
  intros H1. revert t2.
  induction H1 as [|c s t Hc _ IH|c s t Hc _ IH]; intros t2 H2;
    inversion H2; subst; try congruence; auto.
  f_equal. auto.
Qed.

Lemma stripped_clean bad s t c :
  stripped bad s t → bad c = true → PyStr.mem c t = false.
Proof.
  induction 1 as [|d s t Hd _ IH|d s t Hd _ IH]; intros Hc; simpl; auto.
  rewrite IH by done. rewrite orb_false_r.
  apply Ascii.eqb_neq. congruence.
Qed.

Lemma stripped_id bad s :
  PyStr.all (fun c => negb (bad c)) s = true → stripped bad s s.
Proof.
  induction s as [|c s IH]; simpl; [constructor|].
  intros [Hc Hs]%andb_true_iff. constructor; [|by auto].
  by destruct (bad c).
Qed.

Lemma stripped_length bad s t :
  stripped bad s t → (String.length t ≤ String.length s)%nat.
Proof. induction 1; simpl; lia. Qed.

Lemma safe_filename_stripped s : stripped illegal s (safe_filename_of s).
Proof. apply (re_sub_cset_stripped (CIn illegal_chars)). Qed.

Lemma safe_filename_clean s c :
  illegal c = true → PyStr.mem c (safe_filename_of s) = false.
Proof. intros. by eapply stripped_clean; [apply safe_filename_stripped|]. Qed.

Lemma safe_filename_no_sep s : PyStr.mem "/" (safe_filename_of s) = false.
Proof. by apply safe_filename_clean. Qed.

End Sanitize.

(** ** Paths and the file system *)

Section PathFacts.

Import PurePath.

Lemma anchor_of_no_sep s : PyStr.mem "/" s = false → anchor_of s = "".
Proof.
  destruct s as [|c s]; [done|]. rewrite PyStrFacts.mem_cons.
  intros [Hc _]%orb_false_iff. apply Ascii.eqb_neq in Hc.
  unfold anchor_of.
  destruct c as [[] [] [] [] [] [] [] []]; try done.
Qed.

Lemma components_go_no_sep cur s :
  PyStr.mem "/" s = false → components_go cur s = keep (cur +:+ s).
Proof.
  revert cur. induction s as [|c s IH]; intros cur; cbn [components_go].
  - by rewrite PyStrFacts.app_nil_r.
  - rewrite PyStrFacts.mem_cons. intros [Hc Hs]%orb_false_iff.
    rewrite Ascii.eqb_sym, Hc, IH by done.
    by rewrite PyStrFacts.app_assoc.
Qed.

Lemma keep_long s : (2 ≤ String.length s)%nat → keep s = [s].
Proof.
  intros Hl. unfold keep.
  destruct (String.eqb s "") eqn:E1.
  { apply String.eqb_eq in E1 as ->. simpl in Hl. lia. }
  destruct (String.eqb s ".") eqn:E2; [|done].
  apply String.eqb_eq in E2 as ->. simpl in Hl. lia.
Qed.

(** Joining a directory with a single plain name appends one component. *)
Lemma div_single dir s :
  PyStr.mem "/" s = false → (2 ≤ String.length s)%nat →
  (dir / s)%path = child dir s.
Proof.
  intros Hs Hl. unfold div, components, child.
  rewrite anchor_of_no_sep by done. simpl.
  by rewrite components_go_no_sep, PyStrFacts.app_nil_l, keep_long.
Qed.

Lemma div_safe dir s ext :
  PyStr.mem "/" s = false → PyStr.mem "/" ext = false →
  (2 ≤ String.length ext)%nat →
  (dir / (s +:+ ext))%path = child dir (s +:+ ext).
Proof.
  intros Hs Hext Hl. apply div_single.
  - by rewrite PyStrFacts.mem_app, Hs, Hext.
  - rewrite PyStrFacts.length_app. lia.
Qed.

Lemma parent_child dir e : parent (child dir e) = dir.
Proof. destruct dir as [a ps]. unfold parent, child. simpl. by rewrite removelast_last. Qed.

Lemma name_child dir e : name (child dir e) = e.
Proof. unfold name, child. simpl. by rewrite last_last. Qed.

Lemma child_parent_name p : parts p ≠ [] → p = child (parent p) (name p).
Proof.
  destruct p as [a ps]. unfold child, parent, name. simpl. intros Hps.
  f_equal. by apply app_removelast_last.
Qed.

Lemma concat_snoc sep l e : ∃ pre, String.concat sep (l ++ [e]) = pre +:+ e.
Proof.
  induction l as [|x l [pre IH]]; simpl.
  - by exists "".
  - destruct (l ++ [e]) as [|y l'] eqn:E.
    + by destruct l.
    + exists (x +:+ sep +:+ pre). by rewrite IH, !PyStrFacts.app_assoc.
Qed.

(** The text of a path ends with the text of its last component. *)
Lemma to_string_child dir e : ∃ pre, to_string (child dir e) = pre +:+ e.
Proof.
  unfold to_string, child. simpl.
  destruct (concat_snoc "/" (parts dir) e) as [pre Hpre].
  destruct (parts dir ++ [e]) as [|y l] eqn:E.
  - by destruct (parts dir).
  - exists (anchor dir +:+ pre). by rewrite Hpre, PyStrFacts.app_assoc.
Qed.

Lemma to_string_ends_with p suffix :
  parts p ≠ [] → PyStr.ends_with suffix (name p) = true →
  PyStr.ends_with suffix (to_string p) = true.
Proof.
  intros Hp [q Hq]%PyStrFacts.ends_with_spec.
  rewrite (child_parent_name p Hp).
  destruct (to_string_child (parent p) (name p)) as [pre ->].
  apply PyStrFacts.ends_with_spec. exists (pre +:+ q).
  by rewrite Hq, PyStrFacts.app_assoc.
Qed.

End PathFacts.

Section FsFacts.

Lemma lookup_Some p fs f : Fs.lookup p fs = Some f → f ∈ fs ∧ fpath f = p.
Proof.
  unfold Fs.lookup. intros [Hin Hp]%find_some.
  split; [by apply list_elem_of_In|]. by apply bool_decide_eq_true in Hp.
Qed.

Lemma lookup_elem_of f fs : f ∈ fs → ∃ g, Fs.lookup (fpath f) fs = Some g.
Proof.
  intros Hf. unfold Fs.lookup.
  destruct (find _ fs) as [g|] eqn:E; [by eauto|].
  eapply find_none in E; [|by apply list_elem_of_In].
  by apply bool_decide_eq_false in E.
Qed.

Lemma elem_of_glob_mp3 dir fs p :
  p ∈ Fs.glob_mp3 dir fs ↔
  (∃ f, f ∈ fs ∧ fpath f = p) ∧
  parts p ≠ [] ∧ PurePath.parent p = dir ∧
  PyStr.ends_with ".mp3" (PurePath.name p) = true.
Proof.
  unfold Fs.glob_mp3, Fs.in_dir. rewrite list_elem_of_fmap. split.
  - intros (f & -> & Hf). apply list_elem_of_In, filter_In in Hf as [Hf Hc].
    apply andb_true_iff in Hc as [[H1 H2]%andb_true_iff H3].
    apply bool_decide_eq_true in H1, H2.
    split_and!; try done. exists f. split; [|done]. by apply list_elem_of_In.
  - intros ((f & Hf & <-) & H1 & H2 & H3). exists f. split; [done|].
    apply list_elem_of_In, filter_In. split; [by apply list_elem_of_In|].
    rewrite H3, !bool_decide_eq_true_2 by done. done.
Qed.

(** Every path a scan yields has a creation time. *)
Lemma getctime_glob dir fs p :
  p ∈ Fs.glob_mp3 dir fs → ∃ t, Fs.getctime fs p = Ok t.
Proof.
  intros [(f & Hf & <-) _]%elem_of_glob_mp3. unfold Fs.getctime.
  destruct (lookup_elem_of f fs Hf) as [g ->]. eauto.
Qed.

Lemma py_max_go_spec {A} (key : A → Res Z) l : ∀ best kbest,
  key best = Ok kbest →
  (∀ x, x ∈ l → ∃ t, key x = Ok t) →
  ∃ p tp, py_max_go key best kbest l = Ok p ∧ key p = Ok tp ∧
          p ∈ best :: l ∧ kbest ≤ tp ∧
          ∀ q tq, q ∈ l → key q = Ok tq → tq ≤ tp.
Proof.
  induction l as [|x l IH]; intros best kbest Hbest Hkeys; simpl.
  - exists best, kbest. split_and!; [done..|by left|lia|].
    intros q tq Hq. by apply elem_of_nil in Hq.
  - destruct (Hkeys x) as [kx Hx]; [by left|]. rewrite Hx.
    destruct (kbest <? kx) eqn:E.
    + apply Z.ltb_lt in E.
      destruct (IH x kx Hx) as (p & tp & Hmax & Hp & Hin & Hle & Hall).
      { intros y Hy. apply Hkeys. by right. }
      exists p, tp. split_and!; [done..|by right|lia|].
      intros q tq [->|Hq]%elem_of_cons Hkq; [|by eauto].
      rewrite Hx in Hkq. simplify_eq. lia.
    + apply Z.ltb_ge in E.
      destruct (IH best kbest Hbest) as (p & tp & Hmax & Hp & Hin & Hle & Hall).
      { intros y Hy. apply Hkeys. by right. }
      exists p, tp. split_and!; [done..| |lia|].
      { apply elem_of_cons in Hin as [->|Hin]; [by left|by do 2 right]. }
      intros q tq [->|Hq]%elem_of_cons Hkq; [|by eauto].
      rewrite Hx in Hkq. simplify_eq. lia.
Qed.

(** [max] over a non-empty list whose keys are all defined returns an
    element of the list whose key is the greatest. *)
Lemma py_max_spec {A} (key : A → Res Z) l :
  l ≠ [] →
  (∀ x, x ∈ l → ∃ t, key x = Ok t) →
  ∃ p tp, py_max key l = Ok p ∧ key p = Ok tp ∧ p ∈ l ∧
          ∀ q tq, q ∈ l → key q = Ok tq → tq ≤ tp.
Proof.
  destruct l as [|x l]; [done|]. intros _ Hkeys. simpl.
  destruct (Hkeys x) as [kx Hx]; [by left|]. rewrite Hx.
  destruct (py_max_go_spec key l x kx Hx)
    as (p & tp & Hmax & Hp & Hin & Hle & Hall).
  { intros y Hy. apply Hkeys. by right. }
  exists p, tp. split_and!; [done..|].
  intros q tq [->|Hq]%elem_of_cons Hkq; [|by eauto].
  rewrite Hx in Hkq. by simplify_eq.
Qed.

Lemma py_max_go_elem {A} (key : A → Res Z) l : ∀ best kbest p,
  py_max_go key best kbest l = Ok p → p ∈ best :: l.
Proof.
  induction l as [|x l IH]; intros best kbest p; simpl.
  - intros [= ->]. by left.
  - destruct (key x) as [kx|e]; [|done].
    destruct (kbest <? kx); intros Hp%IH.
    + by right.
    + apply elem_of_cons in Hp as [->|Hp]; [by left|by do 2 right].
Qed.

Lemma py_max_elem {A} (key : A → Res Z) l p : py_max key l = Ok p → p ∈ l.
Proof.
  destruct l as [|x l]; [done|]. simpl.
  destruct (key x) as [kx|e]; [|done]. apply py_max_go_elem.
Qed.

Lemma py_max_singleton {A} (key : A → Res Z) x t :
  key x = Ok t → py_max key [x] = Ok x.
Proof. intros H. simpl. by rewrite H. Qed.

(** Renaming an existing file succeeds; afterwards the destination exists
    and, unless it is the source itself, the source is gone. *)
Lemma rename_spec src dst fs :
  src ∈ fpath <$> fs →
  ∃ fs', Fs.rename src dst fs = Ok fs' ∧
         dst ∈ fpath <$> fs' ∧ (src ≠ dst → src ∉ fpath <$> fs').
Proof.
  intros (f & -> & Hf)%list_elem_of_fmap. unfold Fs.rename.
  destruct (lookup_elem_of f fs Hf) as [g ->].
  case_bool_decide as Heq.
  - exists fs. split_and!; [done| |done]. rewrite <- Heq.
    apply list_elem_of_fmap. eauto.
  - eexists. split_and!; [done| |].
    + apply list_elem_of_fmap. exists {| fpath := dst; fctime := fctime f |}.
      split; [done|]. apply list_elem_of_fmap. exists f.
      rewrite bool_decide_eq_true_2 by done. split; [done|].
      apply list_elem_of_In, filter_In. split; [by apply list_elem_of_In|].
      by rewrite bool_decide_eq_false_2.
    + intros _ (h & Hh & (h' & -> & Hh')%list_elem_of_fmap)%list_elem_of_fmap.
      case_bool_decide; simpl in Hh; congruence.
Qed.

End FsFacts.

(** ** Runs of the downloader *)

Section Runs.

Import YouTubeDownloader.

Context (ydl : YtDlp) (mutagen : Mutagen).

Lemma get_video_info_run url w :
  get_video_info ydl url w =
  let '(r, fs) := extract_info ydl url (files w) in
  let w' := {| self_ := self_ w; files := fs |} in
  match r with
  | Ok (Some d) => (Ok (Some (info_of d)), w', [EvExtractInfo url])
  | Ok None =>
      (Ok None, w',
       [EvExtractInfo url; EvPrint (MsgInfoUnavailable AttributeError)])
  | Raise e =>
      (Ok None, w', [EvExtractInfo url; EvPrint (MsgInfoUnavailable e)])
  end.
Proof.
  unfold get_video_info, try_except, mbind, M_bind, fs_call, emit.
  by destruct (extract_info ydl url (files w)) as [[[d|]|e] fs].
Qed.

(** The tag writer never raises, leaves the instance alone and does
    nothing but tag operations and its own warning. *)
Lemma add_metadata_ok p vi w :
  wp (add_metadata mutagen p vi) w
     (fun r w' t =>
        r = Ok () ∧ self_ w' = self_ w ∧ Forall tag_stage_event t ∧
        ∀ q, EvTagOpen q ∈ t → q = PurePath.to_string p).
Proof.
  unfold add_metadata.
  repeat (first [wp_step | wp_branch]);
    (split_and!;
     [by repeat match goal with u : () |- _ => destruct u end
     |done
     |by repeat constructor
     |intros q Hq;
      repeat (apply elem_of_cons in Hq as [Hq|Hq]; [by simplify_eq|]);
      by apply elem_of_nil in Hq]).
Qed.

(** A call whose engine part goes through, step by step: nothing found, or
    the latest file located, renamed when a name was given, and handed to
    the tag writer, whose run is the rest of the call. *)
Lemma download_audio_located url name w d dur vc fs1 fs2 :
  engine_completes ydl url name w d dur vc fs1 fs2 →
  wp (download_audio ydl mutagen url name) w (fun r w' t =>
    let dir := output_dir (self_ w) in
    let pre := fetch_events url name w d dur vc in
    let self' := self_fetched (self_ w) name d in
    match Fs.glob_mp3 dir fs2 with
    | [] =>
        r = Ok None ∧ w' = {| self_ := self'; files := fs2 |} ∧
        t = pre ++ [EvPrint MsgOutputNotFound]
    | l =>
        ∃ p,
          py_max (Fs.getctime fs2) l = Ok p ∧
          if name_given name then
            let new := custom_path (self_ w) (default "" name) in
            ∃ fs3,
              Fs.rename p new fs2 = Ok fs3 ∧
              let tag := add_metadata mutagen new (Some (info_of d)) in
              let w3 := {| self_ := self'; files := fs3 |} in
              r = Ok (Some (PurePath.to_string new)) ∧
              w' = final tag w3 ∧
              t = pre ++ [EvRename p new] ++ events tag w3 ++
                  [EvPrint (MsgDone new)]
          else
            let tag := add_metadata mutagen p (Some (info_of d)) in
            let w3 := {| self_ := self'; files := fs2 |} in
            r = Ok (Some (PurePath.to_string p)) ∧
            w' = final tag w3 ∧
            t = pre ++ events tag w3 ++ [EvPrint (MsgDone p)]
    end).
Proof.
  intros (Hvalid & Hex & Hdur & Hvc & Hdl).
  unfold download_audio. rewrite Hvalid. cbn [negb].
  do 3 wp_step.
  eapply wp_of_run; [by rewrite get_video_info_run, Hex|]. cbn beta iota.
  do 8 wp_step. rewrite Hdur. cbn [py_floordiv py_mod].
  do 6 wp_step. rewrite Hvc. cbn [py_format_comma].
  do 3 wp_step.
  unfold opts_for, custom_template in Hdl.
  unfold self_fetched, fetch_events, opts_for, custom_template, custom_path.
  destruct (name_given name) eqn:Hname; repeat wp_step;
    rewrite Hdl; cbn [fst snd]; repeat wp_step;
    (destruct (Fs.glob_mp3 _ fs2) as [|p0 l] eqn:Hglob;
     [by repeat wp_step|]);
    (destruct (py_max_spec (Fs.getctime fs2) (p0 :: l))
       as (p & tp & Hmax & Hp & Hin & Hall);
     [done|intros x Hx; rewrite <- Hglob in Hx; by eapply getctime_glob|]);
    repeat wp_step; rewrite Hmax; cbn beta iota; repeat wp_step.
  - edestruct (rename_spec p) as (fs3 & Hren & _).
    { rewrite <- Hglob in Hin.
      apply elem_of_glob_mp3 in Hin as [(f & Hf & <-) _].
      apply list_elem_of_fmap. eauto. }
    rewrite Hren. cbn [fst snd]. repeat wp_step.
    match goal with |- wp ?m ?w0 _ =>
      pose proof (add_metadata_ok
                    (output_dir (self_ w) /
                     (safe_filename_of (default "" name) +:+ ".mp3"))%path
                    (Some (info_of d)) w0) as (Hr & _);
      unfold wp at 1; rewrite Hr
    end.
    repeat wp_step. exists p. split; [done|]. by exists fs3.
  - match goal with |- wp ?m ?w0 _ =>
      pose proof (add_metadata_ok p (Some (info_of d)) w0) as (Hr & _);
      unfold wp at 1; rewrite Hr
    end.
    repeat wp_step. by exists p.
Qed.

Ltac ev_cases :=
  repeat match goal with
  | H : _ ∈ _ ++ _ |- _ => apply elem_of_app in H as [H|H]
  | H : _ ∈ _ :: _ |- _ => apply elem_of_cons in H as [H|H]
  | H : _ ∈ [] |- _ => by apply elem_of_nil in H
  | H : EvTagOpen _ ∈ ?t, Ht : ∀ q, EvTagOpen q ∈ ?t → _ |- _ =>
      apply Ht in H; subst
  | H : ?x ∈ ?t, Ht : Forall tag_stage_event ?t |- _ =>
      rewrite Forall_forall in Ht; apply Ht in H; clear Ht
  | H : tag_stage_event _ |- _ => by destruct H
  | H : @eq Event _ _ |- _ =>
      first [discriminate H | injection H as ? ?; subst | injection H as ?; subst]
  end.

Ltac run_branch :=
  lazymatch goal with
  | |- match (?x).1 with _ => _ end =>
      destruct x as [? ?] eqn:?; cbn [fst snd]
  | |- wp (add_metadata _ _ _) _ _ =>
      eapply wp_mono; [apply add_metadata_ok|];
      intros ? ? ? (-> & Hself & ? & ?); cbn [self_] in Hself; cbn beta iota
  | |- _ => wp_branch
  end.

(** What holds of every call, however the engine and the tag library
    behave. *)
Lemma download_audio_always url name w :
  wp (download_audio ydl mutagen url name) w (fun r w' t =>
    let dir := output_dir (self_ w) in
    output_dir (self_ w') = dir ∧
    (∀ opts u, EvDownload opts u ∈ t →
       u = url ∧ opts = opts_for (self_ w) name ∧ ydl_opts (self_ w') = opts) ∧
    (∀ src dst, EvRename src dst ∈ t →
       name_given name = true ∧
       dst = custom_path (self_ w) (default "" name)) ∧
    (∀ path, EvTagOpen path ∈ t → r = Ok (Some path)) ∧
    (∀ s, r = Ok (Some s) →
       ∃ p, s = PurePath.to_string p ∧
            if name_given name
            then p = custom_path (self_ w) (default "" name)
            else ∃ fs, p ∈ Fs.glob_mp3 dir fs)).
Proof.
  unfold download_audio, opts_for, custom_path, custom_template.
  destruct (is_valid_youtube_url url); cbn [negb].
  2:{ repeat wp_step. split_and!; [done|intros; ev_cases..|done]. }
  do 3 wp_step.
  destruct (extract_info ydl url (files w)) as [[[d|]|e] fs1] eqn:Hex;
    (eapply wp_of_run; [by rewrite get_video_info_run, Hex|]);
    cbn beta iota zeta.
  2,3: repeat wp_step; split_and!; [done|intros; ev_cases..|done].
  repeat (first [wp_step | run_branch]).
  all: try rewrite app_nil_r.
  all: try rewrite Hself; cbn [output_dir ydl_opts].
  all: split_and!; [done|by intros; ev_cases..|].
  all: intros s ?; simplify_eq; eexists; (split; [done|]); try done.
  eexists. erewrite Heql0. by eapply py_max_elem.
Qed.

End Runs.

(** ** The specified properties *)

Import YouTubeDownloader.

Lemma custom_path_child self n :
  custom_path self n =
  PurePath.child (output_dir self) (safe_filename_of n +:+ ".mp3").
Proof.
  unfold custom_path. apply div_safe; [apply safe_filename_no_sep|done|].
  simpl. lia.
Qed.

Lemma custom_template_child self n :
  custom_template self n =
  PurePath.to_string
    (PurePath.child (output_dir self) (safe_filename_of n +:+ ".%(ext)s")).
Proof.
  unfold custom_template. f_equal.
  apply div_safe; [apply safe_filename_no_sep|done|]. simpl. lia.
Qed.

Lemma name_given_Some n : name_given (Some n) = true ↔ n ≠ "".
Proof.
  simpl. rewrite negb_true_iff. split.
  - intros H ->. done.
  - intros H. by apply String.eqb_neq.
Qed.

(** The template of a call: the one written for the custom name when a name
    is given, otherwise whatever the instance holds. *)
Lemma download_audio_template ydl mutagen url name w opts u :
  EvDownload opts u ∈ events (download_audio ydl mutagen url name) w →
  opts = opts_for (self_ w) name ∧
  ydl_opts (self_ (final (download_audio ydl mutagen url name) w)) = opts.
Proof.
  intros H.
  destruct (download_audio_always ydl mutagen url name w) as (_ & Hd & _).
  by destruct (Hd _ _ H) as (_ & ? & ?).
Qed.

(** C10. Whenever [download_audio] returns a path, that path is a direct
    child of the configured output directory and its name, hence its text,
    ends in [.mp3]; with or without a custom name. *)
Theorem result_in_output_dir ydl mutagen url name w s :
  result (download_audio ydl mutagen url name) w = Ok (Some s) →
  ∃ p, s = PurePath.to_string p ∧
       parts p ≠ [] ∧
       PurePath.parent p = output_dir (self_ w) ∧
       PyStr.ends_with ".mp3" (PurePath.name p) = true ∧
       PyStr.ends_with ".mp3" s = true.
Proof.
  intros Hr.
  destruct (download_audio_always ydl mutagen url name w) as (_ & _ & _ & _ & Hs).
  destruct (Hs s Hr) as (p & -> & Hp). exists p.
  assert (parts p ≠ [] ∧ PurePath.parent p = output_dir (self_ w) ∧
          PyStr.ends_with ".mp3" (PurePath.name p) = true) as (H1 & H2 & H3).
  { destruct (name_given name).
    - subst p. rewrite custom_path_child.
      rewrite parent_child, name_child.
      split_and!; [|done|apply PyStrFacts.ends_with_app].
      unfold PurePath.child. simpl. by destruct (parts (output_dir (self_ w))).
    - destruct Hp as [fs Hp]. by apply elem_of_glob_mp3 in Hp as (_ & ? & ? & ?). }
  split_and!; try done. by apply to_string_ends_with.
Qed.

(** C6. For a string the validator rejects, [download_audio] returns the
    absent result; the world is left as it was (no file is written) and the
    only thing done is the one message: the engine is invoked neither for
    metadata nor for the download. *)
Theorem invalid_url_aborts ydl mutagen url name w :
  is_valid_youtube_url url = false →
  result (download_audio ydl mutagen url name) w = Ok None ∧
  final (download_audio ydl mutagen url name) w = w ∧
  events (download_audio ydl mutagen url name) w = [EvPrint MsgInvalidUrl].
Proof.
  intros H. unfold result, final, events, download_audio. by rewrite H.
Qed.

(** C5. [get_video_info] returns a record in which every field the engine
    omits has its default (title and uploader ["Unknown"], duration and view
    count 0) and every field the engine gives is passed on; when the engine
    raises, it returns the absent result, and [download_audio] then stops
    after the metadata call with the absent result. *)
Theorem get_video_info_defaults ydl url w :
  (∀ d fs1,
     extract_info ydl url (files w) = (Ok (Some d), fs1) →
     ∃ info,
       result (get_video_info ydl url) w = Ok (Some info) ∧
       title info = default (PyStr "Unknown") (d !! "title") ∧
       uploader info = default (PyStr "Unknown") (d !! "uploader") ∧
       duration info = default (PyInt 0) (d !! "duration") ∧
       view_count info = default (PyInt 0) (d !! "view_count")) ∧
  (∀ e fs1,
     extract_info ydl url (files w) = (Raise e, fs1) →
     result (get_video_info ydl url) w = Ok None ∧
     ∀ mutagen name,
       is_valid_youtube_url url = true →
       result (download_audio ydl mutagen url name) w = Ok None ∧
       events (download_audio ydl mutagen url name) w =
         [EvPrint MsgFetchingInfo; EvExtractInfo url;
          EvPrint (MsgInfoUnavailable e)]).
Proof.
  split.
  - intros d fs1 Hex. exists (info_of d).
    unfold result. by rewrite get_video_info_run, Hex.
  - intros e fs1 Hex. split.
    + unfold result. by rewrite get_video_info_run, Hex.
    + intros mutagen name Hvalid.
      assert (wp (download_audio ydl mutagen url name) w (fun r _ t =>
                r = Ok None ∧
                t = [EvPrint MsgFetchingInfo; EvExtractInfo url;
                     EvPrint (MsgInfoUnavailable e)])) as H; [|exact H].
      unfold download_audio. rewrite Hvalid. cbn [negb]. do 3 wp_step.
      eapply wp_of_run; [by rewrite get_video_info_run, Hex|].
      cbn beta iota. by repeat wp_step.
Qed.

(** C7. When the engine's part of the call goes through and the output
    directory then holds no [.mp3] file, [download_audio] returns the absent
    result and its last message reports that no output was found; nothing
    is renamed and the tag writer is not entered, so the files are those the
    engine left. *)
Theorem no_output_found ydl mutagen url name w d dur vc fs1 fs2 :
  engine_completes ydl url name w d dur vc fs1 fs2 →
  Fs.glob_mp3 (output_dir (self_ w)) fs2 = [] →
  result (download_audio ydl mutagen url name) w = Ok None ∧
  events (download_audio ydl mutagen url name) w =
    fetch_events url name w d dur vc ++ [EvPrint MsgOutputNotFound] ∧
  Forall (fun ev => ¬ rename_or_tag_event ev)
    (events (download_audio ydl mutagen url name) w) ∧
  files (final (download_audio ydl mutagen url name) w) = fs2.
Proof.
  intros Hrun Hglob.
  pose proof (download_audio_located ydl mutagen url name w d dur vc fs1 fs2 Hrun)
    as H.
  unfold wp in H. cbn zeta in H. rewrite Hglob in H. destruct H as (Hr & Hw & Ht).
  rewrite Hr, Hw, Ht. split_and!; [done..| |done].
  unfold fetch_events. repeat constructor; by intros [].
Qed.


(** C9. When the engine's part of the call goes through, the output
    directory then holds [.mp3] files and no custom name was given,
    [download_audio] returns the text of one of those files, one whose
    creation time no other matching file exceeds, and renames nothing; when
    there is exactly one matching file, it is that file. *)
Theorem latest_file_selected ydl mutagen url name w d dur vc fs1 fs2 :
  engine_completes ydl url name w d dur vc fs1 fs2 →
  name_given name = false →
  Fs.glob_mp3 (output_dir (self_ w)) fs2 ≠ [] →
  ∃ p tp,
    result (download_audio ydl mutagen url name) w =
      Ok (Some (PurePath.to_string p)) ∧
    p ∈ Fs.glob_mp3 (output_dir (self_ w)) fs2 ∧
    Fs.getctime fs2 p = Ok tp ∧
    (∀ q tq, q ∈ Fs.glob_mp3 (output_dir (self_ w)) fs2 →
             Fs.getctime fs2 q = Ok tq → tq ≤ tp) ∧
    (∀ src dst,
       EvRename src dst ∉ events (download_audio ydl mutagen url name) w) ∧
    (∀ q, Fs.glob_mp3 (output_dir (self_ w)) fs2 = [q] → p = q).
Proof.
  intros Hrun Hname Hglob.
  pose proof (download_audio_located ydl mutagen url name w d dur vc fs1 fs2 Hrun)
    as H.
  unfold wp in H. cbn zeta in H. rewrite Hname in H.
  destruct (py_max_spec (Fs.getctime fs2)
              (Fs.glob_mp3 (output_dir (self_ w)) fs2))
    as (p & tp & Hmax & Hp & Hin & Hall); [done|apply getctime_glob|].
  destruct (Fs.glob_mp3 (output_dir (self_ w)) fs2) as [|p0 l] eqn:E; [done|].
  destruct H as (p' & Hmax' & Hr & _ & Ht).
  rewrite Hmax in Hmax'. simplify_eq.
  exists p', tp. split_and!; try done.
  - intros src dst Hev.
    destruct (download_audio_always ydl mutagen url name w) as (_ & _ & Hre & _).
    apply Hre in Hev as [? _]. congruence.
  - intros q [= -> ->]. by apply list_elem_of_singleton in Hin.
Qed.

(** C4. When the engine's part of the call goes through and a [.mp3] file is
    located (and renamed when a name was given), [download_audio] returns the
    text of that file's path whatever the tag library does: the result is
    the same for every tag library, one that raises on opening the file, on
    adding a frame or on saving included. *)
Theorem tag_failure_keeps_result ydl mutagen url name w d dur vc fs1 fs2 :
  engine_completes ydl url name w d dur vc fs1 fs2 →
  Fs.glob_mp3 (output_dir (self_ w)) fs2 ≠ [] →
  ∃ p,
    py_max (Fs.getctime fs2) (Fs.glob_mp3 (output_dir (self_ w)) fs2) = Ok p ∧
    let produced :=
      if name_given name then custom_path (self_ w) (default "" name) else p in
    result (download_audio ydl mutagen url name) w =
      Ok (Some (PurePath.to_string produced)) ∧
    ∀ mutagen',
      result (download_audio ydl mutagen' url name) w =
      result (download_audio ydl mutagen url name) w.
Proof.
  intros Hrun Hglob.
  assert (∀ m, ∃ p,
    py_max (Fs.getctime fs2) (Fs.glob_mp3 (output_dir (self_ w)) fs2) = Ok p ∧
    result (download_audio ydl m url name) w =
      Ok (Some (PurePath.to_string
                  (if name_given name
                   then custom_path (self_ w) (default "" name) else p)))) as Hall.
  { intros m.
    pose proof (download_audio_located ydl m url name w d dur vc fs1 fs2 Hrun) as H.
    unfold wp in H. cbn zeta in H.
    destruct (Fs.glob_mp3 (output_dir (self_ w)) fs2) as [|p0 l] eqn:E; [done|].
    destruct H as (p & Hmax & H). exists p. split; [done|].
    destruct (name_given name).
    - by destruct H as (fs3 & _ & Hr & _).
    - by destruct H as (Hr & _). }
  destruct (Hall mutagen) as (p & Hmax & Hr). exists p.
  split; [done|]. cbn zeta. split; [done|].
  intros m. destruct (Hall m) as (p' & Hmax' & Hr').
  rewrite Hmax in Hmax'. simplify_eq. by rewrite Hr, Hr'.
Qed.

(** The tag writer itself never fails the call: it always returns normally,
    and whenever it was entered for a file the call returns that file. *)
Lemma tag_stage_never_raises mutagen p vi w :
  result (add_metadata mutagen p vi) w = Ok ().
Proof. by destruct (add_metadata_ok mutagen p vi w) as (? & _). Qed.

Lemma tag_stage_entered_returns ydl mutagen url name w path :
  EvTagOpen path ∈ events (download_audio ydl mutagen url name) w →
  result (download_audio ydl mutagen url name) w = Ok (Some path).
Proof.
  intros H.
  destruct (download_audio_always ydl mutagen url name w) as (_ & _ & _ & Ht & _).
  by apply Ht.
Qed.

(** C3. The name [download_audio] writes into the output template and the
    name it renames the file to are one and the same sanitised name; it
    contains none of the nine illegal characters and is the requested name
    with exactly those characters deleted, every other character kept in
    place.  This holds for every requested name, those that contain illegal
    characters included. *)
Theorem safe_filename_sanitized ydl mutagen url name w :
  let n := safe_filename_of name in
  let dir := output_dir (self_ w) in
  let run := download_audio ydl mutagen url (Some name) in
  (∀ c, illegal c = true → PyStr.mem c n = false) ∧
  stripped illegal name n ∧
  (∀ opts u, EvDownload opts u ∈ events run w → name ≠ "" →
     outtmpl opts = PurePath.to_string (PurePath.child dir (n +:+ ".%(ext)s"))) ∧
  (∀ src dst, EvRename src dst ∈ events run w →
     dst = PurePath.child dir (n +:+ ".mp3")).
Proof.
  cbn zeta. split_and!.
  - intros c Hc. by apply safe_filename_clean.
  - apply safe_filename_stripped.
  - intros opts u Hev Hname%name_given_Some.
    apply download_audio_template in Hev as [-> _].
    unfold opts_for. rewrite Hname. cbn [outtmpl set_outtmpl default].
    apply custom_template_child.
  - intros src dst Hev.
    destruct (download_audio_always ydl mutagen url (Some name) w)
      as (_ & _ & Hre & _).
    apply Hre in Hev as [_ ->]. apply custom_path_child.
Qed.

(** C1, on a fresh instance used twice: after a download under the custom
    name [My:Song], a download without a custom name hands the engine the
    template of the earlier call, not the title template the instance was
    created with. *)
Theorem stale_template_after_custom_name :
  let first := download_audio Demo.ydl Demo.mutagen Demo.url (Some "My:Song") in
  let second := download_audio Demo.ydl Demo.mutagen Demo.url None in
  let fresh := ydl_opts (init "downloads") in
  outtmpl fresh = "downloads/%(title)s.%(ext)s" ∧
  EvDownload (set_outtmpl "downloads/MySong.%(ext)s" fresh) Demo.url
    ∈ events second (final first Demo.w0) ∧
  ∀ opts u, EvDownload opts u ∈ events second (final first Demo.w0) →
            outtmpl opts ≠ outtmpl fresh.
Proof.
  cbn zeta. split; [reflexivity|].
  assert (events (download_audio Demo.ydl Demo.mutagen Demo.url None)
            (final (download_audio Demo.ydl Demo.mutagen Demo.url
                      (Some "My:Song")) Demo.w0) !! 7%nat =
          Some (EvDownload
                  (set_outtmpl "downloads/MySong.%(ext)s"
                     (ydl_opts (init "downloads"))) Demo.url)) as H
    by (vm_compute; reflexivity).
  split; [by eapply list_elem_of_lookup_2|].
  intros opts u Hev. apply download_audio_template in Hev as [-> _].
  vm_compute. discriminate.
Qed.

(** The defect behind C1 in general: once a call with a custom name has
    reached the engine, a later call without a name on the same instance
    still uses the template written for that name. *)
Lemma template_outlives_call ydl mutagen url1 url2 n w opts1 u1 opts2 u2 :
  let first := download_audio ydl mutagen url1 (Some n) in
  EvDownload opts1 u1 ∈ events first w →
  EvDownload opts2 u2 ∈
    events (download_audio ydl mutagen url2 None) (final first w) →
  opts2 = opts1.
Proof.
  cbn zeta. intros [_ H1]%download_audio_template [-> _]%download_audio_template.
  done.
Qed.

(** *** The properties on the concrete scenario *)

Lemma safe_filename_sanitized_witness :
  safe_filename_of "My:Song" = "MySong" ∧
  PyStr.mem ":" (safe_filename_of "My:Song") = false ∧
  stripped illegal "My:Song" (safe_filename_of "My:Song") ∧
  EvDownload (set_outtmpl "downloads/MySong.%(ext)s" (ydl_opts (init "downloads")))
    Demo.url
    ∈ events (download_audio Demo.ydl Demo.mutagen Demo.url (Some "My:Song"))
        Demo.w0 ∧
  EvRename Demo.produced {| anchor := ""; parts := ["downloads"; "MySong.mp3"] |}
    ∈ events (download_audio Demo.ydl Demo.mutagen Demo.url (Some "My:Song"))
        Demo.w0.
Proof.
  pose proof (safe_filename_sanitized Demo.ydl Demo.mutagen Demo.url "My:Song"
                Demo.w0) as (Hclean & Hstrip & Htmpl & Hren).
  assert (events (download_audio Demo.ydl Demo.mutagen Demo.url (Some "My:Song"))
            Demo.w0 !! 7%nat =
          Some (EvDownload
                  (set_outtmpl "downloads/MySong.%(ext)s"
                     (ydl_opts (init "downloads"))) Demo.url)) as H7
    by (vm_compute; reflexivity).
  assert (events (download_audio Demo.ydl Demo.mutagen Demo.url (Some "My:Song"))
            Demo.w0 !! 8%nat =
          Some (EvRename Demo.produced
                  {| anchor := ""; parts := ["downloads"; "MySong.mp3"] |})) as H8
    by (vm_compute; reflexivity).
  apply list_elem_of_lookup_2 in H7, H8.
  pose proof (Htmpl _ _ H7 ltac:(discriminate)) as Ht.
  pose proof (Hren _ _ H8) as Hr.
  split_and!; [reflexivity|by apply Hclean|exact Hstrip|exact H7|exact H8].
Defined.

Lemma tag_failure_keeps_result_witness :
  result (download_audio Demo.ydl Demo.mutagen_broken Demo.url None) Demo.w0 =
    Ok (Some "downloads/Never Gonna Give You Up.mp3") ∧
  EvPrint (MsgMetadataFailed (LibraryError "not an MP3 file"))
    ∈ events (download_audio Demo.ydl Demo.mutagen_broken Demo.url None) Demo.w0 ∧
  result (download_audio Demo.ydl Demo.mutagen_no_frames Demo.url None) Demo.w0 =
    result (download_audio Demo.ydl Demo.mutagen_broken Demo.url None) Demo.w0 ∧
  result (download_audio Demo.ydl Demo.mutagen_readonly Demo.url None) Demo.w0 =
    result (download_audio Demo.ydl Demo.mutagen_broken Demo.url None) Demo.w0.
Proof.
  destruct (tag_failure_keeps_result Demo.ydl Demo.mutagen_broken Demo.url None
              Demo.w0 Demo.info 213 0 [] [mkFile Demo.produced 100])
    as (p & Hmax & Hr & Hany).
  - unfold engine_completes. split_and!; vm_compute; reflexivity.
  - vm_compute. discriminate.
  - vm_compute in Hmax. injection Hmax as <-.
    split_and!; [exact Hr| |apply Hany..].
    apply (list_elem_of_lookup_2 _ 9%nat). vm_compute. reflexivity.
Defined.

Lemma get_video_info_defaults_witness :
  (∃ info,
     result (get_video_info Demo.ydl Demo.url) Demo.w0 = Ok (Some info) ∧
     title info = PyStr "Never Gonna Give You Up" ∧
     view_count info = PyInt 0) ∧
  result (get_video_info Demo.ydl_offline Demo.url) Demo.w0 = Ok None ∧
  result (download_audio Demo.ydl_offline Demo.mutagen Demo.url None) Demo.w0 =
    Ok None.
Proof.
  split; [|split].
  - destruct (proj1 (get_video_info_defaults Demo.ydl Demo.url Demo.w0)
                Demo.info [] eq_refl) as (info & Hr & Ht & _ & _ & Hv).
    exists info. split_and!; [exact Hr|exact Ht|exact Hv].
  - apply (proj2 (get_video_info_defaults Demo.ydl_offline Demo.url Demo.w0)
             (LibraryError "network") [] eq_refl).
  - apply (proj2 (get_video_info_defaults Demo.ydl_offline Demo.url Demo.w0)
             (LibraryError "network") [] eq_refl).
    reflexivity.
Defined.

Lemma invalid_url_aborts_witness :
  result (download_audio Demo.ydl Demo.mutagen "not a url" None) Demo.w0 = Ok None ∧
  final (download_audio Demo.ydl Demo.mutagen "not a url" None) Demo.w0 = Demo.w0 ∧
  events (download_audio Demo.ydl Demo.mutagen "not a url" None) Demo.w0 =
    [EvPrint MsgInvalidUrl].
Proof. apply invalid_url_aborts. reflexivity. Defined.

Lemma no_output_found_witness :
  result (download_audio Demo.ydl_nothing Demo.mutagen Demo.url None) Demo.w0 =
    Ok None ∧
  files (final (download_audio Demo.ydl_nothing Demo.mutagen Demo.url None)
           Demo.w0) = [].
Proof.
  destruct (no_output_found Demo.ydl_nothing Demo.mutagen Demo.url None Demo.w0
              Demo.info 213 0 [] []) as (Hr & _ & _ & Hf).
  - unfold engine_completes. split_and!; vm_compute; reflexivity.
  - reflexivity.
  - split; [exact Hr|exact Hf].
Defined.


Lemma latest_file_selected_witness :
  ∃ p tp,
    result (download_audio Demo.ydl Demo.mutagen Demo.url None) Demo.w_old =
      Ok (Some (PurePath.to_string p)) ∧
    Fs.getctime [Demo.old_file; mkFile Demo.produced 100] p = Ok tp ∧
    7 ≤ tp.
Proof.
  destruct (latest_file_selected Demo.ydl Demo.mutagen Demo.url None Demo.w_old
              Demo.info 213 0 [Demo.old_file]
              [Demo.old_file; mkFile Demo.produced 100])
    as (p & tp & Hr & Hin & Hp & Hmax & _).
  - unfold engine_completes. split_and!; vm_compute; reflexivity.
  - reflexivity.
  - vm_compute. discriminate.
  - exists p, tp. split_and!; [exact Hr|exact Hp|].
    apply (Hmax (fpath Demo.old_file)); [|reflexivity].
    vm_compute. left.
Defined.

Lemma result_in_output_dir_witness :
  ∃ p, "downloads/MySong.mp3" = PurePath.to_string p ∧
       parts p ≠ [] ∧
       PurePath.parent p = PurePath.of_string "downloads" ∧
       PyStr.ends_with ".mp3" (PurePath.name p) = true ∧
       PyStr.ends_with ".mp3" "downloads/MySong.mp3" = true.
Proof.
  apply (result_in_output_dir Demo.ydl Demo.mutagen Demo.url (Some "My:Song")
           Demo.w0).
  vm_compute. reflexivity.
Defined.

Ltac str_norm H :=
  rewrite ?PyStrFacts.app_assoc in H;
  repeat rewrite ?PyStrFacts.app_cons, ?PyStrFacts.app_nil_l in H.

Lemma is_valid_youtube_url_shape_witness :
  is_valid_youtube_url Demo.url = true ∧
  is_valid_youtube_url "https://www.youtube.com/watch?v=short" = false ∧
  is_valid_youtube_url "https://vimeo.com/dQw4w9WgXcQ" = false.
Proof.
  split_and!.
  - apply (proj1 (is_valid_youtube_url_shape Demo.url)).
    exists "https://www.youtube.com/", "watch?v=dQw4w9WgXcQ". split_and!.
    + exists "https://", "www.", "youtube", "com".
      unfold UrlShape.scheme, UrlShape.www, UrlShape.host, UrlShape.tld.
      split_and!; auto.
    + exists "watch?v=", "dQw4w9WgXcQ", "".
      unfold UrlShape.path_prefix, UrlShape.video_id. split_and!; auto.
    + reflexivity.
  - apply (proj1 (proj2 (is_valid_youtube_url_shape
                           "https://www.youtube.com/watch?v=short"))).
    intros h r Heq (sch & w & hn & t & Hs & Hw & Hh & Ht & ->)
      (p & v & rest & Hp & [Hl Hall] & ->).
    destruct Hs as [->|[->| ->]], Hw as [->| ->], Hh as [->|[->| ->]],
      Ht as [->| ->]; str_norm Heq; try discriminate Heq.
    injection Heq as Heq.
    destruct Hp as [->|[->|[->|[->|(q & Hq & _ & ->)]]]]; str_norm Heq;
      try discriminate Heq.
    + do 11 (destruct v as [|? v]; [discriminate Hl|]).
      destruct v; [|discriminate Hl].
      str_norm Heq. injection Heq as <- <- <- <- <- <- <- <- <- <- <- _.
      vm_compute in Hall. discriminate Hall.
    + apply (f_equal String.length) in Heq. simpl in Heq.
      rewrite PyStrFacts.length_app, Hl in Heq. lia.
    + apply (f_equal String.length) in Heq. simpl in Heq.
      rewrite PyStrFacts.length_app in Heq. simpl in Heq.
      rewrite PyStrFacts.length_app, Hl in Heq. lia.
  - apply (proj2 (proj2 (is_valid_youtube_url_shape
                           "https://vimeo.com/dQw4w9WgXcQ"))).
    intros h r Heq (sch & w & hn & t & Hs & Hw & Hh & Ht & ->).
    destruct Hs as [->|[->| ->]], Hw as [->| ->], Hh as [->|[->| ->]],
      Ht as [->| ->]; str_norm Heq; discriminate Heq.
Defined.

(** *** The end-to-end scenarios *)

Example scenario_title_named :
  result (download_audio Demo.ydl Demo.mutagen Demo.url None) Demo.w0 =
  Ok (Some "downloads/Never Gonna Give You Up.mp3").
Proof. vm_compute. reflexivity. Qed.

Example scenario_custom_name :
  result (download_audio Demo.ydl Demo.mutagen Demo.url (Some "My:Song")) Demo.w0 =
  Ok (Some "downloads/MySong.mp3").
Proof. vm_compute. reflexivity. Qed.

Example scenario_malformed_url :
  download_audio Demo.ydl Demo.mutagen "not a url" None Demo.w0 =
  (Ok None, Demo.w0, [EvPrint MsgInvalidUrl]).
Proof. vm_compute. reflexivity. Qed.

Example scenario_tags_written :
  events (add_metadata Demo.mutagen Demo.produced (Some (info_of Demo.info)))
    Demo.w0 =
  [ EvTagOpen "downloads/Never Gonna Give You Up.mp3";
    EvTagAddTags;
    EvTagAdd (mkFrame TIT2 3 (PyStr "Never Gonna Give You Up"));
    EvTagAdd (mkFrame TPE1 3 (PyStr "Rick Astley"));
    EvTagAdd (mkFrame TALB 3 (PyStr "YouTube - Rick Astley"));
    EvTagSave "downloads/Never Gonna Give You Up.mp3" ].
Proof. vm_compute. reflexivity. Qed.

Example scenario_nine_illegal_characters :
  String.length illegal_chars = 9%nat ∧
  safe_filename_of illegal_chars = "" ∧
  safe_filename_of "a<b>c:d/e|f?g*h" = "abcdefgh".
Proof. vm_compute. auto. Qed.

(** * Part IV: further properties of the code *)

(** ** The tag writer *)

Ltac wp_pair :=
  lazymatch goal with
  | |- match (?x).1 with _ => _ end =>
      destruct x as [? ?] eqn:?; cbn [fst snd]
  | |- _ => wp_branch
  end.

(** Whatever the library does, the tag writer returns normally and leaves
    the instance alone; the frames it hands over are, in order, those the
    metadata calls for, all of them once it gets to saving; and the files
    are touched by saving only. *)
Lemma add_metadata_frames mutagen p vi w :
  wp (add_metadata mutagen p vi) w (fun r w' t =>
    r = Ok () ∧ self_ w' = self_ w ∧ Forall tag_stage_event t ∧
    (∀ q, EvTagOpen q ∈ t → q = PurePath.to_string p) ∧
    added_frames t `prefix_of` tag_frames vi ∧
    ((∃ q, EvTagSave q ∈ t) → added_frames t = tag_frames vi) ∧
    ((∀ q, EvTagSave q ∉ t) → files w' = files w)).
Proof.
  unfold add_metadata, tag_frames.
  repeat (first [wp_step | wp_pair]).
  all: split_and!;
    [ by repeat match goal with u : () |- _ => destruct u end
    | done
    | by repeat constructor
    | intros q Hq;
      repeat (apply elem_of_cons in Hq as [Hq|Hq]; [by simplify_eq|]);
      by apply elem_of_nil in Hq
    | cbn; by eexists
    | try done;
      intros [q Hq];
      repeat (apply elem_of_cons in Hq as [Hq|Hq]; [by simplify_eq|]);
      by apply elem_of_nil in Hq
    | try done; intros Hq; exfalso; eapply Hq;
      repeat first [by left | right] ].
Qed.

(** ** Every call, in more detail *)

Lemma elem_of_added_frames f t : f ∈ added_frames t ↔ EvTagAdd f ∈ t.
Proof.
  unfold added_frames. rewrite list_elem_of_omap. split.
  - intros (ev & Hev & Hf). destruct ev; by simplify_eq.
  - intros Hf. by exists (EvTagAdd f).
Qed.

Lemma engine_calls_app t1 t2 :
  engine_calls (t1 ++ t2) = engine_calls t1 ++ engine_calls t2.
Proof. apply List.filter_app. Qed.

Lemma engine_calls_tag_stage t :
  Forall tag_stage_event t → engine_calls t = [].
Proof.
  induction 1 as [|ev t Hev _ IH]; [done|].
  unfold engine_calls in *. simpl. rewrite IH.
  destruct ev as [[]| | | | | | |]; done.
Qed.

Ltac ev_split :=
  repeat match goal with
  | H : _ ∈ _ ++ _ |- _ => apply elem_of_app in H as [H|H]
  | H : _ ∈ _ :: _ |- _ => apply elem_of_cons in H as [H|H]
  | H : _ ∈ [] |- _ => by apply elem_of_nil in H
  | H : @eq Event _ _ |- _ =>
      first [discriminate H | injection H as ? ?; subst | injection H as ?; subst]
  end.

Ltac profile_branch :=
  lazymatch goal with
  | |- match (?x).1 with _ => _ end =>
      destruct x as [? ?] eqn:?; cbn [fst snd]
  | |- wp (add_metadata _ _ _) _ _ =>
      eapply wp_mono; [apply add_metadata_frames|];
      intros ? ? ? (-> & Hself & Htag & _ & Hpre & _ & _);
      cbn [self_] in Hself; cbn beta iota
  | |- _ => wp_branch
  end.

Ltac calls_norm :=
  unfold engine_calls; cbn [List.filter is_engine_call];
  try (rewrite List.filter_app;
       match goal with
       | Htag : Forall tag_stage_event ?t |- _ =>
           change (List.filter is_engine_call t) with (engine_calls t);
           rewrite (engine_calls_tag_stage t Htag)
       end;
       cbn [List.filter is_engine_call app]).

(** What every call does with the engine, the instance, the exceptions and
    the tag frames. *)
Lemma download_audio_profile ydl mutagen url name w :
  wp (download_audio ydl mutagen url name) w (fun r w' t =>
    (engine_calls t = [] ∨
     engine_calls t = [EvExtractInfo url] ∨
     engine_calls t =
       [EvExtractInfo url; EvDownload (opts_for (self_ w) name) url]) ∧
    (ydl_opts (self_ w') = ydl_opts (self_ w) ∨
     ydl_opts (self_ w') = opts_for (self_ w) name) ∧
    (current_video_info (self_ w') = current_video_info (self_ w) ∨
     ∃ d fs1, extract_info ydl url (files w) = (Ok (Some d), fs1) ∧
              current_video_info (self_ w') = Some (info_of d)) ∧
    (∀ e, r = Raise e →
       is_valid_youtube_url url = true ∧
       engine_calls t = [EvExtractInfo url] ∧
       ydl_opts (self_ w') = ydl_opts (self_ w) ∧
       ∃ d fs1,
         extract_info ydl url (files w) = (Ok (Some d), fs1) ∧
         current_video_info (self_ w') = Some (info_of d) ∧
         (py_floordiv (duration (info_of d)) 60 = Raise e ∨
          is_int (duration (info_of d)) ∧
          py_format_comma (view_count (info_of d)) = Raise e)) ∧
    (∀ f, EvTagAdd f ∈ t →
       ∃ d fs1, extract_info ydl url (files w) = (Ok (Some d), fs1) ∧
                f ∈ tag_frames (Some (info_of d)))).
Proof.
  unfold download_audio, opts_for, custom_template.
  destruct (is_valid_youtube_url url) eqn:Hvalid; cbn [negb].
  2:{ repeat wp_step. split_and!; [by left|by left|by left|done|].
      intros; ev_split. }
  do 3 wp_step.
  destruct (extract_info ydl url (files w)) as [[[d|]|e] fs1] eqn:Hex;
    (eapply wp_of_run; [by rewrite get_video_info_run, Hex|]);
    cbn beta iota zeta.
  2,3: repeat wp_step;
    (split_and!; [right; by left|by left|by left|done|by intros; ev_split]).
  repeat (first [wp_step | profile_branch]).
  all: try rewrite app_nil_r.
  all: try rewrite Hself; cbn [output_dir ydl_opts current_video_info].
  all: destruct (duration (info_of d)) as [|dur|] eqn:Hdur;
    cbn [py_floordiv py_mod] in *; simplify_eq.
  all: split_and!;
    [ calls_norm; first [by left | by (right; left) | by (right; right)]
    | first [by left | by right]
    | right; by exists d, fs1
    | intros e0 ?; simplify_eq;
      (split_and!; [done|by calls_norm|done|]);
      exists d, fs1; rewrite ?Hdur; cbn [py_floordiv];
      (split_and!; [done..|]);
      first [by left | right; split; [by eexists|done]]
    | intros f Hf; ev_split;
      exists d, fs1; (split; [done|]);
      apply elem_of_added_frames in Hf;
      match goal with Hpre : _ `prefix_of` _ |- _ => destruct Hpre as [k ->] end;
      apply elem_of_app; by left ].
Qed.

(** ** The extra properties *)

(** X1. When the download call of the engine raises, [download_audio]
    reports the failure and returns the absent result; nothing is listed,
    renamed or tagged, and the files are those the engine left. *)
Theorem download_error_is_absent ydl mutagen url name w d dur vc fs1 fs2 e :
  is_valid_youtube_url url = true →
  extract_info ydl url (files w) = (Ok (Some d), fs1) →
  duration (info_of d) = PyInt dur →
  view_count (info_of d) = PyInt vc →
  download ydl (opts_for (self_ w) name) url fs1 = (Raise e, fs2) →
  result (download_audio ydl mutagen url name) w = Ok None ∧
  events (download_audio ydl mutagen url name) w =
    fetch_events url name w d dur vc ++ [EvPrint (MsgDownloadFailed e)] ∧
  files (final (download_audio ydl mutagen url name) w) = fs2.
Proof.
  intros Hvalid Hex Hdur Hvc Hdl.
  assert (wp (download_audio ydl mutagen url name) w (fun r w' t =>
            r = Ok None ∧
            t = fetch_events url name w d dur vc ++ [EvPrint (MsgDownloadFailed e)] ∧
            files w' = fs2)) as H; [|exact H].
  unfold download_audio. rewrite Hvalid. cbn [negb].
  do 3 wp_step.
  eapply wp_of_run; [by rewrite get_video_info_run, Hex|]. cbn beta iota.
  do 8 wp_step. rewrite Hdur. cbn [py_floordiv py_mod].
  do 6 wp_step. rewrite Hvc. cbn [py_format_comma].
  do 3 wp_step.
  unfold opts_for, custom_template in Hdl.
  unfold fetch_events, opts_for, custom_template.
  destruct (name_given name); repeat wp_step; rewrite Hdl; cbn [fst snd];
    by repeat wp_step.
Qed.

(** X2. A call asks the engine for metadata at most once and for the
    download at most once, the download only after the metadata and with
    the options of this call; nothing is retried. *)
Theorem engine_asked_at_most_once ydl mutagen url name w :
  let t := events (download_audio ydl mutagen url name) w in
  engine_calls t = [] ∨
  engine_calls t = [EvExtractInfo url] ∨
  engine_calls t = [EvExtractInfo url; EvDownload (opts_for (self_ w) name) url].
Proof.
  by destruct (download_audio_profile ydl mutagen url name w) as (H & _).
Qed.



(** X5. When an exception escapes, it is a [TypeError] or a [ValueError];
    the engine was asked for the metadata and never for the download, the
    instance already holds the new metadata, and its options are
    untouched. *)
Theorem escaped_exception_state ydl mutagen url name w e :
  result (download_audio ydl mutagen url name) w = Raise e →
  let w' := final (download_audio ydl mutagen url name) w in
  (e = TypeError ∨ e = ValueError) ∧
  engine_calls (events (download_audio ydl mutagen url name) w) =
    [EvExtractInfo url] ∧
  ydl_opts (self_ w') = ydl_opts (self_ w) ∧
  ∃ d fs1, extract_info ydl url (files w) = (Ok (Some d), fs1) ∧
           current_video_info (self_ w') = Some (info_of d).
Proof.
  intros Hr. cbn zeta.
  destruct (download_audio_profile ydl mutagen url name w)
    as (_ & _ & _ & He & _).
  destruct (He e Hr) as (_ & Hcalls & Hopts & d & fs1 & Hex & Hcur & Hcase).
  split_and!; [|done|done|by exists d, fs1].
  destruct Hcase as [H|[_ H]].
  - destruct (duration (info_of d)); simplify_eq/=; by left.
  - destruct (view_count (info_of d)); simplify_eq/=; [by left|by right].
Qed.

(** X6. Every frame a call hands to the tag library is one of those the
    metadata fetched by this very call asks for. *)
Theorem frames_come_from_this_call ydl mutagen url name w f :
  EvTagAdd f ∈ events (download_audio ydl mutagen url name) w →
  ∃ d fs1, extract_info ydl url (files w) = (Ok (Some d), fs1) ∧
           f ∈ tag_frames (Some (info_of d)).
Proof.
  intros Hf.
  destruct (download_audio_profile ydl mutagen url name w)
    as (_ & _ & _ & _ & Hframes).
  by apply Hframes.
Qed.

(** X7. The tag writer hands the library the title frame, then the artist
    and album frames, each only for a field that is present and not empty,
    in this order and nothing else; a failure cuts the sequence short, and
    once the file is saved all of them were handed over. *)
Theorem add_metadata_frames_in_order mutagen p vi w :
  let t := events (add_metadata mutagen p vi) w in
  added_frames t `prefix_of` tag_frames vi ∧
  ((∃ q, EvTagSave q ∈ t) → added_frames t = tag_frames vi).
Proof.
  cbn zeta.
  by destruct (add_metadata_frames mutagen p vi w) as (_ & _ & _ & _ & ? & ? & _).
Qed.

(** X8. The tag writer never raises and never changes the instance, and
    unless it gets to saving it leaves the files as they were. *)
Theorem add_metadata_contained mutagen p vi w :
  let run := add_metadata mutagen p vi in
  result run w = Ok () ∧
  self_ (final run w) = self_ w ∧
  ((∀ q, EvTagSave q ∉ events run w) → files (final run w) = files w).
Proof.
  cbn zeta.
  by destruct (add_metadata_frames mutagen p vi w) as (? & ? & _ & _ & _ & _ & ?).
Qed.

(** X9. The tags are written to the very file whose path is returned: when
    the tag writer was entered for a path, the call returns that path. *)
Theorem tags_go_to_the_returned_file ydl mutagen url name w path :
  EvTagOpen path ∈ events (download_audio ydl mutagen url name) w →
  result (download_audio ydl mutagen url name) w = Ok (Some path).
Proof.
  intros H.
  destruct (download_audio_always ydl mutagen url name w) as (_ & _ & _ & Ht & _).
  by apply Ht.
Qed.


(** ** More on the validator and the sanitiser *)

Ltac str_norm_goal :=
  rewrite ?PyStrFacts.app_assoc;
  repeat rewrite ?PyStrFacts.app_cons, ?PyStrFacts.app_nil_l.

(** After a host part, validity is decided by what follows alone. *)
Lemma is_valid_after_host_part h r :
  UrlShape.host_part h →
  is_valid_youtube_url (h +:+ r) = Re.re_match id_regex r.
Proof.
  intros (sch & w & hn & t & Hs & Hw & Hh & Ht & ->).
  unfold is_valid_youtube_url, Re.re_match, youtube_regex, id_regex.
  destruct Hs as [->|[->| ->]], Hw as [->| ->], Hh as [->|[->| ->]],
    Ht as [->| ->]; str_norm_goal; cbn; rewrite ?orb_false_r; reflexivity.
Qed.

(** X11. Which of the recognised host spellings a URL uses (scheme or not,
    [www.] or not, any of the three host names with either top-level
    domain) has no influence on the verdict: it depends only on what
    follows the slash. *)
Theorem verdict_ignores_host_spelling h1 h2 r :
  UrlShape.host_part h1 → UrlShape.host_part h2 →
  is_valid_youtube_url (h1 +:+ r) = is_valid_youtube_url (h2 +:+ r).
Proof.
  intros H1 H2. by rewrite !is_valid_after_host_part.
Qed.

(** X12. Text after the identifier is not looked at: a valid URL stays
    valid whatever is appended to it. *)
Theorem valid_url_extends s t :
  is_valid_youtube_url s = true → is_valid_youtube_url (s +:+ t) = true.
Proof.
  rewrite !is_valid_youtube_url_iff.
  intros (h & r & Hh & (p & v & rest & Hp & Hv & ->) & ->).
  exists h, (p +:+ v +:+ rest +:+ t). split_and!; [done| |].
  - by exists p, v, (rest +:+ t).
  - by rewrite !PyStrFacts.app_assoc.
Qed.

Lemma host_part_length h : UrlShape.host_part h → (9 ≤ String.length h)%nat.
Proof.
  intros (sch & w & hn & t & Hs & Hw & Hh & Ht & ->).
  destruct Hs as [->|[->| ->]], Hw as [->| ->], Hh as [->|[->| ->]],
    Ht as [->| ->]; vm_compute; lia.
Qed.

(** X13. No string shorter than 20 characters is a valid URL. *)
Theorem valid_url_min_length s :
  is_valid_youtube_url s = true → (20 ≤ String.length s)%nat.
Proof.
  rewrite is_valid_youtube_url_iff.
  intros (h & r & Hh%host_part_length & (p & v & rest & _ & [Hv _] & ->) & ->).
  rewrite !PyStrFacts.length_app, Hv. lia.
Qed.

Lemma re_sub_cset_app p s t :
  Re.re_sub_cset p "" (s +:+ t) =
  Re.re_sub_cset p "" s +:+ Re.re_sub_cset p "" t.
Proof.
  induction s as [|c s IH]; [done|].
  rewrite PyStrFacts.app_cons. simpl. rewrite IH.
  by destruct (Re.cset_mem p c).
Qed.

Lemma re_sub_cset_idem p s :
  Re.re_sub_cset p "" (Re.re_sub_cset p "" s) = Re.re_sub_cset p "" s.
Proof.
  induction s as [|c s IH]; [done|]. simpl.
  destruct (Re.cset_mem p c) eqn:E.
  - by rewrite !PyStrFacts.app_nil_l.
  - simpl. by rewrite E, IH.
Qed.

(** X14. Sanitising is idempotent, works piece by piece on a concatenation,
    never lengthens a name and leaves a name without illegal characters as
    it is. *)
Theorem safe_filename_algebra s t :
  safe_filename_of (safe_filename_of s) = safe_filename_of s ∧
  safe_filename_of (s +:+ t) = safe_filename_of s +:+ safe_filename_of t ∧
  (String.length (safe_filename_of s) ≤ String.length s)%nat ∧
  (PyStr.all (fun c => negb (illegal c)) s = true → safe_filename_of s = s).
Proof.
  split_and!.
  - apply re_sub_cset_idem.
  - apply re_sub_cset_app.
  - eapply stripped_length, safe_filename_stripped.
  - intros Hs. eapply stripped_functional; [apply safe_filename_stripped|].
    by apply stripped_id.
Qed.

Lemma safe_filename_all_illegal s :
  PyStr.all illegal s = true → safe_filename_of s = "".
Proof.
  induction s as [|c s IH]; [done|]. intros H.
  cbn [PyStr.all] in H. apply andb_true_iff in H as [Hc Hs].
  unfold safe_filename_of in *. cbn [Re.re_sub_cset].
  change (Re.cset_mem (Re.CIn illegal_chars) c) with (illegal c).
  rewrite Hc, PyStrFacts.app_nil_l. auto.
Qed.

(** X15. A custom name made of illegal characters only is still taken as
    given, with an empty sanitised name: the engine is handed the template
    [.%(ext)s] and the file is renamed to [.mp3], both directly inside the
    output directory. *)
Theorem illegal_only_name ydl mutagen url name w :
  name ≠ "" → PyStr.all illegal name = true →
  let dir := output_dir (self_ w) in
  let run := download_audio ydl mutagen url (Some name) in
  (∀ opts u, EvDownload opts u ∈ events run w →
     outtmpl opts = PurePath.to_string (PurePath.child dir ".%(ext)s")) ∧
  (∀ src dst, EvRename src dst ∈ events run w →
     dst = PurePath.child dir ".mp3") ∧
  (∀ s, result run w = Ok (Some s) →
     s = PurePath.to_string (PurePath.child dir ".mp3")).
Proof.
  intros Hname%name_given_Some Hall. cbn zeta.
  pose proof (safe_filename_all_illegal name Hall) as Hsafe.
  destruct (download_audio_always ydl mutagen url (Some name) w)
    as (_ & Hdl & Hre & _ & Hres).
  split_and!.
  - intros opts u Hev. destruct (Hdl _ _ Hev) as (_ & -> & _).
    unfold opts_for. rewrite Hname. cbn [outtmpl set_outtmpl from_option id].
    by rewrite custom_template_child, Hsafe.
  - intros src dst Hev. destruct (Hre _ _ Hev) as (_ & ->). cbn [from_option id].
    by rewrite custom_path_child, Hsafe.
  - intros s Hs. destruct (Hres _ Hs) as (p & -> & Hp).
    rewrite Hname in Hp. subst p. cbn [from_option id].
    by rewrite custom_path_child, Hsafe.
Qed.

(** X16. [get_video_info] never raises and never changes the instance; when
    the engine answers [None] instead of a dictionary, the attribute error
    is caught and the absent result returned. *)
Theorem get_video_info_contained ydl url w :
  let run := get_video_info ydl url in
  (∃ r, result run w = Ok r) ∧
  self_ (final run w) = self_ w ∧
  (∀ fs1, extract_info ydl url (files w) = (Ok None, fs1) →
     result run w = Ok None ∧
     events run w =
       [EvExtractInfo url; EvPrint (MsgInfoUnavailable AttributeError)]).
Proof.
  cbn zeta. unfold result, final, events. rewrite get_video_info_run.
  destruct (extract_info ydl url (files w)) as [[[d|]|e] fs] eqn:E; cbn;
    (split_and!; [by eexists|done|by intros ? [= <-]]).
Qed.

(** ** The interactive shell *)

Lemma invalid_url_events ydl mutagen url name w :
  is_valid_youtube_url url = false →
  events (download_audio ydl mutagen url name) w = [EvPrint MsgInvalidUrl].
Proof. intros H. unfold events, download_audio. by rewrite H. Qed.

(** The engine is only ever asked about the URL of the call, and only when
    that URL is valid. *)
Lemma engine_call_url ydl mutagen url name w ev :
  ev ∈ events (download_audio ydl mutagen url name) w →
  (∀ u, ev = EvExtractInfo u → u = url ∧ is_valid_youtube_url url = true) ∧
  (∀ o u, ev = EvDownload o u → u = url ∧ is_valid_youtube_url url = true).
Proof.
  intros Hev.
  destruct (is_valid_youtube_url url) eqn:Hvalid.
  - split.
    + intros u ->. split; [|done].
      assert (EvExtractInfo u ∈ engine_calls
                (events (download_audio ydl mutagen url name) w)) as Hin.
      { apply list_elem_of_In, filter_In. split; [by apply list_elem_of_In|done]. }
      destruct (download_audio_profile ydl mutagen url name w) as (Hc & _).
      unfold wp in Hc. destruct Hc as [Hc|[Hc|Hc]]; rewrite Hc in Hin.
      * by apply elem_of_nil in Hin.
      * apply list_elem_of_singleton in Hin. by simplify_eq.
      * apply elem_of_cons in Hin as [Hin|Hin]; [by simplify_eq|].
        apply list_elem_of_singleton in Hin. by simplify_eq.
    + intros o u ->. split; [|done].
      destruct (download_audio_always ydl mutagen url name w) as (_ & Hd & _).
      by destruct (Hd _ _ Hev) as (? & _).
  - rewrite invalid_url_events in Hev by done.
    apply list_elem_of_singleton in Hev. subst ev. by split.
Qed.

Section ShellFacts.

Import Shell.

Context (ydl : YtDlp) (mutagen : Mutagen).

Lemma call_ok_mono inputs inputs' w w' ev :
  (∀ x, x ∈ inputs → x ∈ inputs') →
  output_dir (self_ w) = output_dir (self_ w') →
  call_ok inputs w ev → call_ok inputs' w' ev.
Proof.
  intros Hsub Hdir [H1 H2]. split.
  - intros u Hu. destruct (H1 u Hu) as (? & line & ? & ?). eauto.
  - intros src dst Hev. destruct (H2 src dst Hev) as (line & ? & ? & ->).
    rewrite Hdir. eauto.
Qed.

Lemma outcome_ok_mono inputs inputs' o pre t :
  (∀ x, x ∈ inputs → x ∈ inputs') →
  outcome_ok inputs o t → outcome_ok inputs' o (pre ++ t).
Proof.
  intros Hsub. destruct o as [| |e]; simpl; [| |done].
  - intros [Hl (line & ? & ?)]. rewrite last_app, Hl. eauto.
  - intros [p Hl]. rewrite last_app, Hl. eauto.
Qed.

(** A session that goes on after some events that are fine by themselves. *)
Lemma session_ok_continue inputs rest w w1 pre run :
  (∀ x, x ∈ rest → x ∈ inputs) →
  output_dir (self_ w1) = output_dir (self_ w) →
  (∀ ev, ShCall ev ∈ pre → call_ok inputs w ev) →
  session_ok rest w1 run →
  session_ok inputs w (run.1.1, run.1.2, pre ++ run.2).
Proof.
  intros Hsub Hdir Hpre (Hd & Hcalls & Ho). unfold session_ok. cbn [fst snd].
  split_and!.
  - congruence.
  - intros ev [Hev|Hev]%elem_of_app; [by apply Hpre|].
    eapply call_ok_mono; [done..|]. by apply Hcalls.
  - by eapply outcome_ok_mono.
Qed.

(** What one call of the shell to [download_audio] does. *)
Lemma shell_call_ok inputs w line_url line_name :
  line_url ∈ inputs → line_name ∈ inputs →
  let name :=
    if String.eqb (py_strip line_name) "" then None
    else Some (py_strip line_name) in
  ∀ ev, ev ∈ events (download_audio ydl mutagen (py_strip line_url) name) w →
        call_ok inputs w ev.
Proof.
  intros Hu Hn name ev Hev. split.
  - intros u Hcase.
    destruct (engine_call_url ydl mutagen _ _ _ _ Hev) as [H1 H2].
    destruct Hcase as [->|[opts ->]].
    + destruct (H1 _ eq_refl) as [-> ?]. eauto.
    + destruct (H2 _ _ eq_refl) as [-> ?]. eauto.
  - intros src dst ->.
    destruct (download_audio_always ydl mutagen (py_strip line_url) name w)
      as (_ & _ & Hre & _).
    destruct (Hre _ _ Hev) as [Hgiven ->].
    exists line_name. subst name.
    destruct (String.eqb (py_strip line_name) "") eqn:E; [done|].
    apply String.eqb_neq in E. split_and!; [done..|].
    cbn [from_option id]. apply custom_path_child.
Qed.

Ltac no_calls :=
  let ev := fresh in let H := fresh in
  intros ev H;
  repeat (apply elem_of_cons in H as [H|H]; [done|]);
  by apply elem_of_nil in H.

Lemma main_loop_session_ok n : ∀ inputs w,
  (length inputs ≤ n)%nat → session_ok inputs w (main_loop ydl mutagen inputs w).
Proof.
  induction n as [|n IH]; intros inputs w Hlen.
  { destruct inputs; [|simpl in Hlen; lia].
    split_and!; [done|no_calls|by eexists]. }
  destruct inputs as [|l1 rest]; [split_and!; [done|no_calls|by eexists]|].
  cbn [main_loop]. simpl in Hlen.
  destruct (String.eqb (py_strip l1) "1") eqn:E1.
  - destruct rest as [|l2 rest]; [split_and!; [done|no_calls|by eexists]|].
    simpl in Hlen.
    destruct (String.eqb (py_strip l2) "") eqn:E2.
    + pose proof (IH rest w ltac:(lia)) as Hrest.
      destruct (main_loop ydl mutagen rest w) as [[o w'] t].
      apply (session_ok_continue _ rest w w _ (o, w', t)); try done.
      * intros x Hx. by do 2 right.
      * no_calls.
    + destruct rest as [|l3 rest]; [split_and!; [done|no_calls|by eexists]|].
      simpl in Hlen.
      pose proof (shell_call_ok (l1 :: l2 :: l3 :: rest) w l2 l3
                    ltac:(set_solver) ltac:(set_solver)) as Hcall.
      cbn zeta in Hcall.
      set (name := if String.eqb (py_strip l3) "" then None
                   else Some (py_strip l3)) in *.
      pose proof (download_audio_always ydl mutagen (py_strip l2) name w)
        as (Hdir & _).
      pose proof (download_audio_profile ydl mutagen (py_strip l2) name w)
        as (_ & _ & _ & Hraise & _).
      unfold wp, result, final, events in Hdir, Hraise, Hcall.
      destruct (download_audio ydl mutagen (py_strip l2) name w)
        as [[[res|e] w1] t1]; cbn [fst snd] in *.
      * pose proof (IH rest w1 ltac:(lia)) as Hrest.
        destruct (main_loop ydl mutagen rest w1) as [[o w'] t].
        rewrite !app_assoc.
        apply (session_ok_continue _ rest w w1 _ (o, w', t)); try done.
        -- intros x Hx. by do 3 right.
        -- intros ev Hev. rewrite <- !app_assoc in Hev.
           apply elem_of_app in Hev as [Hev|Hev]; [revert ev Hev; no_calls|].
           apply elem_of_app in Hev as [Hev|Hev].
           ++ apply list_elem_of_fmap in Hev as (ev' & [= <-] & Hev').
              by apply Hcall.
           ++ apply list_elem_of_singleton in Hev. done.
      * split_and!; cbn [fst snd].
        -- done.
        -- intros ev Hev.
           apply elem_of_app in Hev as [Hev|Hev]; [revert ev Hev; no_calls|].
           apply list_elem_of_fmap in Hev as (ev' & [= <-] & Hev').
           by apply Hcall.
        -- destruct (Hraise e eq_refl) as (_ & _ & _ & d & fs1 & _ & _ & Hcase).
           destruct Hcase as [H|[_ H]].
           ++ destruct (duration (info_of d)); simplify_eq/=; by left.
           ++ destruct (view_count (info_of d)); simplify_eq/=; [by left|by right].
  - destruct (String.eqb (py_strip l1) "2") eqn:E2.
    + apply String.eqb_eq in E2.
      split_and!; [done|no_calls|]. split; [done|]. exists l1. split; [by left|done].
    + pose proof (IH rest w ltac:(lia)) as Hrest.
      destruct (main_loop ydl mutagen rest w) as [[o w'] t].
      apply (session_ok_continue _ rest w w _ (o, w', t)); try done.
      * intros x Hx. by right.
      * no_calls.
Qed.

End ShellFacts.

(** X17. In a shell session the engine is asked about nothing but valid
    URLs, each the stripped form of a line that was typed. *)
Theorem shell_asks_about_valid_urls ydl mutagen inputs fs ev u :
  Shell.ShCall ev ∈ (Shell.main ydl mutagen inputs fs).2 →
  ev = EvExtractInfo u ∨ (∃ opts, ev = EvDownload opts u) →
  is_valid_youtube_url u = true ∧
  ∃ line, line ∈ inputs ∧ u = Shell.py_strip line.
Proof.
  unfold Shell.main. intros Hev Hcase.
  pose proof (main_loop_session_ok ydl mutagen (length inputs) inputs
                {| self_ := init "downloads"; files := fs |} ltac:(done))
    as (_ & Hcalls & _).
  destruct (Shell.main_loop ydl mutagen inputs _) as [[o w] t].
  cbn [fst snd] in *.
  apply elem_of_cons in Hev as [Hev|Hev]; [done|].
  by apply (proj1 (Hcalls ev Hev) u).
Qed.

(** X18. In a shell session a file is renamed only to the sanitised form of
    a stripped, non-empty line that was typed, with the extension [.mp3],
    directly inside [downloads]. *)
Theorem shell_renames_to_typed_names ydl mutagen inputs fs src dst :
  Shell.ShCall (EvRename src dst) ∈ (Shell.main ydl mutagen inputs fs).2 →
  ∃ line, line ∈ inputs ∧ Shell.py_strip line ≠ "" ∧
          dst = PurePath.child (PurePath.of_string "downloads")
                  (safe_filename_of (Shell.py_strip line) +:+ ".mp3").
Proof.
  unfold Shell.main. intros Hev.
  pose proof (main_loop_session_ok ydl mutagen (length inputs) inputs
                {| self_ := init "downloads"; files := fs |} ltac:(done))
    as (_ & Hcalls & _).
  destruct (Shell.main_loop ydl mutagen inputs _) as [[o w] t].
  cbn [fst snd] in *.
  apply elem_of_cons in Hev as [Hev|Hev]; [done|].
  by apply (proj2 (Hcalls _ Hev) src dst).
Qed.


(** ** Validity and the engine *)

Lemma wp_any {A} (m : M A) w (Q : Res A → World → list Event → Prop) :
  (∀ r w' t, Q r w' t) → wp m w Q.
Proof. unfold wp. auto. Qed.

(** A valid URL gets as far as the metadata request. *)
Lemma valid_url_reaches_engine ydl mutagen url name w :
  is_valid_youtube_url url = true →
  ∃ t', events (download_audio ydl mutagen url name) w =
        [EvPrint MsgFetchingInfo; EvExtractInfo url] ++ t'.
Proof.
  intros Hvalid.
  assert (wp (download_audio ydl mutagen url name) w (fun _ _ t =>
            ∃ t', t = [EvPrint MsgFetchingInfo; EvExtractInfo url] ++ t'))
    as H; [|exact H].
  unfold download_audio. rewrite Hvalid. cbn [negb]. do 3 wp_step.
  destruct (extract_info ydl url (files w)) as [[[d|]|e] fs1] eqn:Hex;
    (eapply wp_of_run; [by rewrite get_video_info_run, Hex|]);
    cbn beta iota zeta; apply wp_any; intros; simpl; by eexists.
Qed.

(** X20. The engine is asked for metadata exactly when the URL is valid,
    and then this request is the first thing done after the announcement. *)
Theorem metadata_requested_iff_valid ydl mutagen url name w :
  let t := events (download_audio ydl mutagen url name) w in
  (EvExtractInfo url ∈ t ↔ is_valid_youtube_url url = true) ∧
  (is_valid_youtube_url url = true →
   ∃ t', t = [EvPrint MsgFetchingInfo; EvExtractInfo url] ++ t').
Proof.
  cbn zeta. split; [|apply valid_url_reaches_engine]. split.
  - intros Hev. by destruct (engine_call_url _ _ _ _ _ _ Hev) as [H _];
      destruct (H url eq_refl).
  - intros [t' ->]%(valid_url_reaches_engine ydl mutagen url name w).
    simpl. right. by left.
Qed.

(** ** The test script *)

(** X21. Whatever the engine and the tag library do, the test script asks
    the engine for the metadata of its URL, hands it no template but
    [downloads/test_song.%(ext)s], and reports success for no path but
    [downloads/test_song.mp3]. *)
Theorem test_script_paths ydl mutagen fs :
  let t := (TestDownload.test_downloader ydl mutagen fs).2 in
  TestDownload.TCall (EvExtractInfo TestDownload.test_url) ∈ t ∧
  (∀ opts u, TestDownload.TCall (EvDownload opts u) ∈ t →
     u = TestDownload.test_url ∧ outtmpl opts = "downloads/test_song.%(ext)s") ∧
  (∀ path, TestDownload.TPrint (TestDownload.TestPassed path) ∈ t →
     path = "downloads/test_song.mp3").
Proof.
  cbn zeta. unfold TestDownload.test_downloader.
  set (w := {| self_ := init "downloads"; files := fs |}).
  set (run := download_audio ydl mutagen TestDownload.test_url (Some "test_song")).
  pose proof (download_audio_always ydl mutagen TestDownload.test_url
                (Some "test_song") w) as (_ & Hdl & _ & _ & Hres).
  pose proof (valid_url_reaches_engine ydl mutagen TestDownload.test_url
                (Some "test_song") w eq_refl) as [t' Hreach].
  unfold wp, result, final, events in *. fold run in Hdl, Hres, Hreach.
  destruct (run w) as [[[res|e] w1] t1]; cbn [fst snd] in *.
  - split_and!.
    + rewrite Hreach. simpl. do 4 right. by left.
    + intros opts u Hev.
      repeat (apply elem_of_cons in Hev as [Hev|Hev]; [done|]).
      apply elem_of_app in Hev as [Hev|Hev].
      * apply list_elem_of_fmap in Hev as (ev & [= <-] & Hev).
        by destruct (Hdl _ _ Hev) as (-> & -> & _).
      * by apply list_elem_of_singleton in Hev.
    + intros path Hev.
      repeat (apply elem_of_cons in Hev as [Hev|Hev]; [done|]).
      apply elem_of_app in Hev as [Hev|Hev].
      * by apply list_elem_of_fmap in Hev as (ev & [=] & _).
      * apply list_elem_of_singleton in Hev.
        destruct res as [s|]; [|done].
        destruct (Hres s eq_refl) as (p & -> & ->).
        destruct (String.eqb _ ""); by simplify_eq.
  - split_and!.
    + rewrite Hreach. simpl. do 4 right. by left.
    + intros opts u Hev.
      repeat (apply elem_of_cons in Hev as [Hev|Hev]; [done|]).
      apply list_elem_of_fmap in Hev as (ev & [= <-] & Hev).
      by destruct (Hdl _ _ Hev) as (-> & -> & _).
    + intros path Hev.
      repeat (apply elem_of_cons in Hev as [Hev|Hev]; [done|]).
      by apply list_elem_of_fmap in Hev as (ev & [=] & _).
Qed.

(** ** The installer *)

Section InstallFacts.

Import Install.

Lemma elem_of_pip_attempts p t : p ∈ pip_attempts t ↔ IPip p ∈ t.
Proof.
  unfold pip_attempts. rewrite list_elem_of_omap. split.
  - intros (ev & Hev & Hp). destruct ev; by simplify_eq.
  - intros Hp. by exists (IPip p).
Qed.

Lemma pip_attempts_app t1 t2 :
  pip_attempts (t1 ++ t2) = pip_attempts t1 ++ pip_attempts t2.
Proof. apply omap_app. Qed.

Lemma pip_attempts_installed p t :
  pip_attempts ([IPrint (InstInstalling p); IPip p] ++
                [IPrint (InstInstalled p)] ++ t) = p :: pip_attempts t.
Proof. reflexivity. Qed.

(** The loop over any list of packages: it tries them in order up to the
    first that does not install, and runs to its end exactly when all
    install. *)
Lemma install_loop_spec m ps :
  let r := fst (install_loop m ps) in
  let t := snd (install_loop m ps) in
  pip_attempts t `prefix_of` ps ∧
  (IFfmpeg ∉ t) ∧
  (r = Ok true ↔ Forall (fun p => pip_install m p = ProcOk) ps) ∧
  (∀ p, p ∈ pip_attempts t → pip_install m p ≠ ProcOk →
        last (pip_attempts t) = Some p).
Proof.
  induction ps as [|p ps IH]; cbn zeta.
  { split_and!; [done|by intros ?%elem_of_nil|done|by intros ? ?%elem_of_nil]. }
  cbn [install_loop]. unfold install_package.
  destruct (pip_install m p) eqn:Hp.
  - destruct (install_loop m ps) as [r t]. cbn [fst snd] in *.
    destruct IH as (Hpre & Hff & Hok & Hlast).
    rewrite pip_attempts_installed. split_and!.
    + by apply prefix_cons.
    + intros Hin. repeat (apply elem_of_cons in Hin as [Hin|Hin]; [done|]). done.
    + rewrite Hok, Forall_cons. tauto.
    + intros q [->|Hq]%elem_of_cons Hbad; [done|].
      pose proof (Hlast q Hq Hbad) as Hl.
      destruct (pip_attempts t); [done|]. done.
  - cbn [fst snd]. split_and!.
    + cbn. apply prefix_cons, prefix_nil.
    + intros Hin. repeat (apply elem_of_cons in Hin as [Hin|Hin]; [done|]).
      by apply elem_of_nil in Hin.
    + split; [done|]. intros [Hbad _]%Forall_cons. congruence.
    + cbn. by intros q ->%list_elem_of_singleton _.
  - cbn [fst snd]. split_and!.
    + cbn. apply prefix_cons, prefix_nil.
    + intros Hin. repeat (apply elem_of_cons in Hin as [Hin|Hin]; [done|]).
      by apply elem_of_nil in Hin.
    + split; [done|]. intros [Hbad _]%Forall_cons. congruence.
    + cbn. by intros q ->%list_elem_of_singleton _.
Qed.

End InstallFacts.

(** X22. The installer exits with status 0 exactly when [pip] installs
    every package of its list and [ffmpeg] is found; with status 1
    otherwise. *)
Theorem installer_exit_status m :
  (Install.exit_status m = 0 ↔
   Forall (fun p => Install.pip_install m p = Install.ProcOk) Install.packages ∧
   Install.ffmpeg_version m = Install.ProcOk) ∧
  (Install.exit_status m = 0 ∨ Install.exit_status m = 1).
Proof.
  unfold Install.exit_status, Install.main.
  destruct (install_loop_spec m Install.packages) as (_ & _ & Hok & _).
  cbn zeta in Hok.
  destruct (Install.install_loop m Install.packages) as [[[]|e] t];
    cbn [fst snd] in *.
  - unfold Install.check_ffmpeg.
    destruct (Install.ffmpeg_version m); cbn [fst snd];
      (split; [|by auto]); rewrite <- Hok; split; try done; by intros [_ ?].
  - split; [|by right]. rewrite <- Hok. split; [done|]. by intros [? _].
  - split; [|by right]. rewrite <- Hok. split; [done|]. by intros [? _].
Qed.

(** X23. The installer runs [pip] for the packages of its list in order
    and stops at the first that does not install: a package that fails is
    the last one tried, and [ffmpeg] is looked for only when every package
    installed. *)
Theorem installer_stops_at_first_failure m :
  let t := (Install.main m).2 in
  Install.pip_attempts t `prefix_of` Install.packages ∧
  (Install.IFfmpeg ∈ t ↔
   Forall (fun p => Install.pip_install m p = Install.ProcOk) Install.packages) ∧
  (∀ p, p ∈ Install.pip_attempts t →
        Install.pip_install m p ≠ Install.ProcOk →
        last (Install.pip_attempts t) = Some p).
Proof.
  cbn zeta. unfold Install.main.
  destruct (install_loop_spec m Install.packages)
    as (Hpre & Hff & Hok & Hlast).
  cbn zeta in *.
  destruct (Install.install_loop m Install.packages) as [r t].
  cbn [fst snd] in *.
  assert (∀ post, (∀ ev, ev ∈ post → ∀ p, ev ≠ Install.IPip p) →
            Install.pip_attempts
              ([Install.IPrint Install.InstBanner] ++ t ++ post) =
            Install.pip_attempts t) as Hsame.
  { intros post Hpost. rewrite !pip_attempts_app. cbn.
    assert (Install.pip_attempts post = []) as ->; [|by rewrite app_nil_r].
    destruct (Install.pip_attempts post) as [|p l] eqn:E; [done|].
    assert (p ∈ Install.pip_attempts post) as Hp by (rewrite E; by left).
    apply elem_of_pip_attempts in Hp. by destruct (Hpost _ Hp p). }
  destruct r as [[]|e].
  - assert (Forall (fun p => Install.pip_install m p = Install.ProcOk)
              Install.packages) as Hforall by by apply Hok.
    unfold Install.check_ffmpeg, Install.platform_hint.
    destruct (Install.ffmpeg_version m); cbn [fst snd];
      repeat case_match; rewrite <- ?app_assoc;
      (rewrite Hsame;
       [|intros ev Hev p ->;
         repeat (apply elem_of_cons in Hev as [Hev|Hev]; [done|]);
         by apply elem_of_nil in Hev]);
      (split_and!; [done| |done]);
      (split; [done|]); intros _;
      apply elem_of_app; right; apply elem_of_app; right;
      right; by left.
  - cbn [fst snd]. specialize (Hsame []). rewrite app_nil_r in Hsame.
    rewrite Hsame by by intros ? ?%elem_of_nil.
    split_and!; [done| |done]. rewrite <- Hok. split; [|done].
    intros [Hin|Hin]%elem_of_app; [|done].
    by apply list_elem_of_singleton in Hin.
  - cbn [fst snd]. specialize (Hsame []). rewrite app_nil_r in Hsame.
    rewrite Hsame by by intros ? ?%elem_of_nil.
    split_and!; [done| |done]. rewrite <- Hok. split; [|done].
    intros [Hin|Hin]%elem_of_app; [|done].
    by apply list_elem_of_singleton in Hin.
Qed.

(** ** The extra properties on the concrete scenarios *)

Lemma download_error_is_absent_witness :
  result (download_audio Demo2.ydl_no_ffmpeg Demo.mutagen Demo.url None) Demo.w0 =
    Ok None ∧
  last (events (download_audio Demo2.ydl_no_ffmpeg Demo.mutagen Demo.url None)
          Demo.w0) =
    Some (EvPrint (MsgDownloadFailed (LibraryError "ffmpeg not found"))).
Proof.
  destruct (download_error_is_absent Demo2.ydl_no_ffmpeg Demo.mutagen Demo.url
              None Demo.w0 Demo.info 213 0 [] []
              (LibraryError "ffmpeg not found"))
    as (Hr & Ht & _); try reflexivity.
  split; [exact Hr|]. rewrite Ht. reflexivity.
Defined.

Lemma escaped_exception_state_witness :
  engine_calls (events (download_audio Demo2.ydl_live Demo.mutagen Demo.url None)
                  Demo.w0) = [EvExtractInfo Demo.url] ∧
  ∃ d fs1,
    extract_info Demo2.ydl_live Demo.url [] = (Ok (Some d), fs1) ∧
    current_video_info
      (self_ (final (download_audio Demo2.ydl_live Demo.mutagen Demo.url None)
                Demo.w0)) = Some (info_of d).
Proof.
  destruct (escaped_exception_state Demo2.ydl_live Demo.mutagen Demo.url None
              Demo.w0 TypeError) as (_ & Hc & _ & Hd).
  - vm_compute. reflexivity.
  - split; [exact Hc|exact Hd].
Defined.

Lemma frames_come_from_this_call_witness :
  ∃ d fs1,
    extract_info Demo.ydl Demo.url [] = (Ok (Some d), fs1) ∧
    mkFrame TIT2 3 (PyStr "Never Gonna Give You Up")
      ∈ tag_frames (Some (info_of d)).
Proof.
  apply (frames_come_from_this_call Demo.ydl Demo.mutagen Demo.url None Demo.w0).
  apply (list_elem_of_lookup_2 _ 10%nat). vm_compute. reflexivity.
Defined.

Lemma tags_go_to_the_returned_file_witness :
  result (download_audio Demo.ydl Demo.mutagen Demo.url (Some "My:Song")) Demo.w0 =
  Ok (Some "downloads/MySong.mp3").
Proof.
  apply tags_go_to_the_returned_file.
  apply (list_elem_of_lookup_2 _ 9%nat). vm_compute. reflexivity.
Defined.


Lemma verdict_ignores_host_spelling_witness :
  is_valid_youtube_url ("youtu.be/" +:+ "dQw4w9WgXcQ") =
  is_valid_youtube_url ("https://www.youtube-nocookie.com/" +:+ "dQw4w9WgXcQ").
Proof.
  apply verdict_ignores_host_spelling.
  - exists "", "", "youtu", "be".
    unfold UrlShape.scheme, UrlShape.www, UrlShape.host, UrlShape.tld.
    split_and!; auto.
  - exists "https://", "www.", "youtube-nocookie", "com".
    unfold UrlShape.scheme, UrlShape.www, UrlShape.host, UrlShape.tld.
    split_and!; auto.
Defined.

Lemma valid_url_extends_witness :
  is_valid_youtube_url (Demo.url +:+ "&list=PL1&t=42s") = true.
Proof. apply valid_url_extends. reflexivity. Defined.

Lemma valid_url_min_length_witness :
  (20 ≤ String.length "youtu.be/dQw4w9WgXcQ")%nat.
Proof. apply valid_url_min_length. reflexivity. Defined.

Lemma illegal_only_name_witness :
  result (download_audio Demo.ydl Demo.mutagen Demo.url (Some "???")) Demo.w0 =
    Ok (Some "downloads/.mp3").
Proof.
  destruct (illegal_only_name Demo.ydl Demo.mutagen Demo.url "???" Demo.w0)
    as (_ & _ & Hres); [discriminate|reflexivity|].
  assert (∃ s, result (download_audio Demo.ydl Demo.mutagen Demo.url (Some "???"))
                 Demo.w0 = Ok (Some s)) as [s Hs]
    by (eexists; vm_compute; reflexivity).
  rewrite Hs. by rewrite (Hres s Hs).
Defined.

Lemma shell_asks_about_valid_urls_witness :
  is_valid_youtube_url Demo.url = true ∧
  ∃ line, line ∈ Demo2.session ∧ Demo.url = Shell.py_strip line.
Proof.
  apply (shell_asks_about_valid_urls Demo.ydl Demo.mutagen Demo2.session []
           (EvExtractInfo Demo.url)).
  - apply (list_elem_of_lookup_2 _ 6%nat). vm_compute. reflexivity.
  - by left.
Defined.

Lemma shell_renames_to_typed_names_witness :
  ∃ line, line ∈ Demo2.session ∧ Shell.py_strip line ≠ "" ∧
          {| anchor := ""; parts := ["downloads"; "MySong.mp3"] |} =
          PurePath.child (PurePath.of_string "downloads")
            (safe_filename_of (Shell.py_strip line) +:+ ".mp3").
Proof.
  apply (shell_renames_to_typed_names Demo.ydl Demo.mutagen Demo2.session []
           Demo.produced).
  apply (list_elem_of_lookup_2 _ 13%nat). vm_compute. reflexivity.
Defined.
